(** * SpaceDownloaderEnglish.py: a shallow embedding and its properties

    The script is one straight-line pipeline: credential guard, argument
    resolution, optional evalscript file, OAuth token, image geometry,
    time range, JSON request, HTTP POST, output file.  Python floats are
    binary64 values, modelled by Rocq's primitive floats; Python ints are
    [Z]; exceptions and [exit()] are explicit results; printing, file and
    network operations are recorded in a trace. *)

From Stdlib Require Import ZArith Lia Bool List Ascii String.
From Stdlib Require Import Floats.
From stdpp Require Import base strings gmap pretty.
Import ListNotations.

Local Open Scope string_scope.
Local Open Scope Z_scope.

(** ** Python results: a value or a raised exception *)

Inductive PyExc : Type :=
  | ZeroDivisionError
  | ValueError
  | OverflowError
  | IndexError
  | RuntimeFailure (what : string).

Inductive result (A : Type) : Type :=
  | Ok (a : A)
  | Raise (e : PyExc).
Arguments Ok {A} a.
Arguments Raise {A} e.

#[global] Instance result_ret : MRet result := @Ok.
#[global] Instance result_bind : MBind result := fun A B k m =>
  match m with
  | Ok a => k a
  | Raise e => Raise e
  end.

(** ** Python's float and int arithmetic, as the script uses it *)

Module Py.

(** [float(n)] for an int [n], as in [HEIGHT * aspect_ratio] and
    [width / aspect_ratio]: nearest binary64, ties to even;
    OverflowError when [n] is beyond the float range. *)
Definition float_of_int (n : Z) : result float :=
  match binary_normalize prec emax n 0 false with
  | S754_infinity _ => Raise OverflowError
  | sf => Ok (SF2Prim sf)
  end.

(** The integer part of a finite [m * 2^e], towards zero. *)
Definition trunc_mantissa (m : positive) (e : Z) : Z :=
  match e with
  | Z0 => Zpos m
  | Zpos k => Z.shiftl (Zpos m) (Zpos k)
  | Zneg k => Z.shiftr (Zpos m) (Zpos k)
  end.

(** [int(x)] for a float [x]: truncation towards zero; ValueError on
    NaN, OverflowError on an infinity. *)
Definition int_of_float (x : float) : result Z :=
  match Prim2SF x with
  | S754_nan => Raise ValueError
  | S754_infinity _ => Raise OverflowError
  | S754_zero _ => Ok 0
  | S754_finite s m e =>
      Ok (if s then - trunc_mantissa m e else trunc_mantissa m e)
  end.

(** [x / y] on floats: ZeroDivisionError when [y] is [0.0] or [-0.0]. *)
Definition truediv (x y : float) : result float :=
  if (y =? 0)%float then Raise ZeroDivisionError else Ok (x / y)%float.

(** [math.pi] and the factor [math.radians] multiplies by. *)
Definition pi : float := 0x1.921fb54442d18p+1%float.
Definition degToRad : float := (pi / 180)%float.
Definition radians (x : float) : float := (x * degToRad)%float.

(** [math.cos], around the C library's [cos]: a NaN result for an
    argument that is not NaN, or an infinite result for a finite
    argument, is a ValueError. *)
Definition math_cos (cos : float -> float) (x : float) : result float :=
  let r := cos x in
  if is_nan r && negb (is_nan x) then Raise ValueError
  else if is_infinity r && is_finite x then Raise ValueError
  else Ok r.

(** [l[i]] for a list and a literal index. *)
Definition index {A : Type} (l : list A) (i : nat) : result A :=
  match nth_error l i with
  | Some a => Ok a
  | None => Raise IndexError
  end.

End Py.

(** ** Lines 19-20: defaults the geometry uses *)

Definition MAX_WIDTH : Z := 2500.

(** ** Lines 84-99: image geometry

    [cos] is the C library's cosine, the one function of the calculation
    that Python does not define itself. *)

Section Geometry.

Variable cos : float -> float.

(** Lines 84-89. *)
Definition aspect_ratio (BOX : list float) : result float :=
  b3 ← Py.index BOX 3;
  b1 ← Py.index BOX 1;
  let lat_diff := (b3 - b1)%float in
  b2 ← Py.index BOX 2;
  b0 ← Py.index BOX 0;
  let lng_diff := (b2 - b0)%float in
  let avg_lat := ((b1 + b3) / 2)%float in
  let lat_distance := (lat_diff * 111)%float in
  c ← Py.math_cos cos (Py.radians avg_lat);
  let lng_distance := (lng_diff * 111 * c)%float in
  Py.truediv lng_distance lat_distance.

(** Line 92: [int(HEIGHT * aspect_ratio)]. *)
Definition initial_width (HEIGHT : Z) (ratio : float) : result Z :=
  h ← Py.float_of_int HEIGHT;
  Py.int_of_float (h * ratio)%float.

(** Line 99: [int(width / aspect_ratio)]. *)
Definition clamped_height (width : Z) (ratio : float) : result Z :=
  w ← Py.float_of_int width;
  q ← Py.truediv w ratio;
  Py.int_of_float q.

(** Lines 92-99: the final [(width, height)]. *)
Definition dimensions (HEIGHT : Z) (ratio : float) : result (Z * Z) :=
  width ← initial_width HEIGHT ratio;
  let height := HEIGHT in
  if width >? MAX_WIDTH then
    let width := MAX_WIDTH in
    height ← clamped_height width ratio;
    Ok (width, height)
  else Ok (width, height).

Definition geometry (BOX : list float) (HEIGHT : Z) : result (Z * Z) :=
  ratio ← aspect_ratio BOX;
  dimensions HEIGHT ratio.

End Geometry.

(** ** Python strings: [len], [str.replace], [str.split(",")]

    A [str] is held as the bytes of its UTF-8 encoding, the form in
    which the command line hands it over. *)

Module PyStr.

Definition nl : string := String "010"%char "".
Definition dquote : string := String "034"%char "".

(** The value of a byte, and whether it lies in a range. *)
Definition code (c : ascii) : Z := Z.of_N (N_of_ascii c).
Definition between (lo hi : Z) (c : ascii) : bool :=
  (lo <=? code c) && (code c <=? hi).
Definition continuation (c : ascii) : bool := between 128 191 c.

(** The first two bytes of a well-formed sequence of three bytes, and
    of four: no overlong form, no surrogate, nothing above U+10FFFF. *)
Definition leads_three (a b : ascii) : bool :=
  (between 224 224 a && between 160 191 b)
  || (between 225 236 a && continuation b)
  || (between 237 237 a && between 128 159 b)
  || (between 238 239 a && continuation b).
Definition leads_four (a b : ascii) : bool :=
  (between 240 240 a && between 144 191 b)
  || (between 241 243 a && continuation b)
  || (between 244 244 a && between 128 143 b).

(** How many bytes the character at the start of [s] takes: those of
    the well-formed UTF-8 sequence there, and one for a byte that
    starts none, which the decoding of the command line keeps as one
    character of its own. *)
Definition sequence_length (s : string) : nat :=
  match s with
  | String a (String b rest) =>
      if between 194 223 a && continuation b then 2%nat
      else
        match rest with
        | String c rest' =>
            if leads_three a b && continuation c then 3%nat
            else
              match rest' with
              | String d _ =>
                  if leads_four a b && continuation c && continuation d
                  then 4%nat else 1%nat
              | "" => 1%nat
              end
        | "" => 1%nat
        end
  | _ => 1%nat
  end.

(** Characters of [s] from a position on; [skip] counts the bytes of
    the current character still to be passed. *)
Fixpoint len_from (skip : nat) (s : string) : nat :=
  match s with
  | "" => O
  | String _ rest =>
      match skip with
      | S k => len_from k rest
      | O => S (len_from (Nat.pred (sequence_length s)) rest)
      end
  end.

(** [len(s)]: characters, not bytes. *)
Definition len (s : string) : nat := len_from O s.

(** [s.replace("", new)]: [new] before every character and at the end. *)
Fixpoint interleave (new s : string) : string :=
  match s with
  | "" => new
  | String c s' => new ++ String c (interleave new s')
  end.

(** Left-to-right scan of [s.replace(old, new)] for a non-empty [old];
    [skip] counts the characters of a match still to be dropped. *)
Fixpoint replace_from (skip : nat) (old new s : string) : string :=
  match s with
  | "" => ""
  | String c s' =>
      match skip with
      | S k => replace_from k old new s'
      | O =>
          if String.prefix old s
          then new ++ replace_from (Nat.pred (String.length old)) old new s'
          else String c (replace_from O old new s')
      end
  end.

Definition replace (old new s : string) : string :=
  match old with
  | "" => interleave new s
  | _ => replace_from O old new s
  end.

(** [s.split(sep)] for a one-character separator. *)
Fixpoint split_on (sep : ascii) (s : string) : list string :=
  match s with
  | "" => [""]
  | String c s' =>
      if Ascii.eqb c sep then "" :: split_on sep s'
      else match split_on sep s' with
           | [] => [String c ""]
           | w :: ws => String c w :: ws
           end
  end.

End PyStr.

(** ** Lines 19-41: defaults *)

Definition HEIGHT : Z := 512.
Definition FORMAT : string := "image/jpeg".
Definition FILENAME : string := "image1.jpg".
Definition QUALITY : Z := 90.
Definition BOX : string := "15.0617, 50.2856, 15.2252, 50.3378".

Definition EVALSCRIPT : string :=
  PyStr.nl ++
  "//VERSION=3" ++ PyStr.nl ++
  "function setup() {" ++ PyStr.nl ++
  "  return {" ++ PyStr.nl ++
  "    input: [" ++ PyStr.dquote ++ "B02" ++ PyStr.dquote ++ ", "
                  ++ PyStr.dquote ++ "B03" ++ PyStr.dquote ++ ", "
                  ++ PyStr.dquote ++ "B04" ++ PyStr.dquote ++ "]," ++ PyStr.nl ++
  "    output: { bands: 3 }," ++ PyStr.nl ++
  "  }" ++ PyStr.nl ++
  "}" ++ PyStr.nl ++
  "function evaluatePixel(sample) {" ++ PyStr.nl ++
  "  let exposure = 2;" ++ PyStr.nl ++
  "  return [sample.B04 * exposure, sample.B03 * exposure, sample.B02 * exposure];" ++ PyStr.nl ++
  "}" ++ PyStr.nl.

(** ** Lines 43-52: the parsed command line *)

(** A number as argparse leaves it in [args.jas]: the int default [2]
    when [-J] is absent, otherwise the float that [type=float] made. *)
Inductive PyNum : Type :=
  | PyInt (n : Z)
  | PyFloat (x : float).

Record Args : Type := mkArgs {
  soubor : string;
  vyska : Z;
  box : string;
  format : string;
  kvalita : Z;
  evalscript : string;
  jas : PyNum;
  ukaztoken : bool
}.

Definition default_args : Args :=
  {| soubor := FILENAME; vyska := HEIGHT; box := BOX; format := FORMAT;
     kvalita := QUALITY; evalscript := ""; jas := PyInt 2; ukaztoken := false |}.

(** ** [datetime] values in UTC, [timedelta(days=...)] and [isoformat]

    An aware UTC datetime is its proleptic Gregorian ordinal (day 1 is
    0001-01-01, as [toordinal] counts) and its time of day. *)

Module Datetime.

Record datetime : Type := mkDatetime {
  ordinal : Z;
  hour : Z;
  minute : Z;
  second : Z;
  microsecond : Z
}.

Definition MAXORDINAL : Z := 3652059.

Definition valid (d : datetime) : Prop :=
  1 <= ordinal d <= MAXORDINAL /\ 0 <= hour d < 24 /\ 0 <= minute d < 60 /\
  0 <= second d < 60 /\ 0 <= microsecond d < 1000000.

(** Microseconds since the start of day 0. *)
Definition instant (d : datetime) : Z :=
  (((ordinal d * 24 + hour d) * 60 + minute d) * 60 + second d) * 1000000
  + microsecond d.

Definition week_us : Z := 7 * 24 * 60 * 60 * 1000000.

(** [d - timedelta(days=n)]: OverflowError outside years 1..9999. *)
Definition minus_days (d : datetime) (n : Z) : result datetime :=
  let days := ordinal d - n in
  if (0 <? days) && (days <=? MAXORDINAL)
  then Ok (mkDatetime days (hour d) (minute d) (second d) (microsecond d))
  else Raise OverflowError.

Definition DI400Y : Z := 146097.
Definition DI100Y : Z := 36524.
Definition DI4Y : Z := 1461.

Definition DAYS_IN_MONTH (m : Z) : Z :=
  nth (Z.to_nat m) [0; 31; 28; 31; 30; 31; 30; 31; 31; 30; 31; 30; 31] 0.
Definition DAYS_BEFORE_MONTH (m : Z) : Z :=
  nth (Z.to_nat m) [0; 0; 31; 59; 90; 120; 151; 181; 212; 243; 273; 304; 334] 0.

(** [(year, month, day)] of an ordinal, by the 400/100/4/1-year cycles. *)
Definition ord2ymd (n : Z) : Z * Z * Z :=
  let n := n - 1 in
  let n400 := n / DI400Y in
  let n := n mod DI400Y in
  let year := n400 * 400 + 1 in
  let n100 := n / DI100Y in
  let n := n mod DI100Y in
  let n4 := n / DI4Y in
  let n := n mod DI4Y in
  let n1 := n / 365 in
  let n := n mod 365 in
  let year := year + n100 * 100 + n4 * 4 + n1 in
  if (n1 =? 4) || (n100 =? 4) then (year - 1, 12, 31)
  else
    let leapyear := (n1 =? 3) && (negb (n4 =? 24) || (n100 =? 3)) in
    let month := Z.shiftr (n + 50) 5 in
    let preceding :=
      DAYS_BEFORE_MONTH month + (if (2 <? month) && leapyear then 1 else 0) in
    if n <? preceding then
      let month := month - 1 in
      let preceding :=
        preceding
        - (DAYS_IN_MONTH month + (if (month =? 2) && leapyear then 1 else 0)) in
      (year, month, n - preceding + 1)
    else (year, month, n - preceding + 1).

Fixpoint zeros (count : nat) : string :=
  match count with
  | O => ""
  | S count' => String "0" (zeros count')
  end.

(** ["%0<width>d" % n] for a non-negative [n]. *)
Definition zero_pad (width : nat) (n : Z) : string :=
  let digits := pretty n in
  zeros (width - String.length digits) ++ digits.

(** [d.isoformat()] for a datetime whose tzinfo is [timezone.utc]. *)
Definition isoformat (d : datetime) : string :=
  let '(y, m, dd) := ord2ymd (ordinal d) in
  zero_pad 4 y ++ "-" ++ zero_pad 2 m ++ "-" ++ zero_pad 2 dd ++ "T"
  ++ zero_pad 2 (hour d) ++ ":" ++ zero_pad 2 (minute d) ++ ":"
  ++ zero_pad 2 (second d)
  ++ (if microsecond d =? 0 then "" else "." ++ zero_pad 6 (microsecond d))
  ++ "+00:00".

(** A text of exactly [width] decimal digits. *)
Definition is_digit (c : ascii) : bool :=
  (48 <=? nat_of_ascii c)%nat && (nat_of_ascii c <=? 57)%nat.

Fixpoint all_digits (s : string) : bool :=
  match s with
  | "" => true
  | String c s' => is_digit c && all_digits s'
  end.

Definition digit_field (width : nat) (s : string) : Prop :=
  String.length s = width /\ all_digits s = true.

(** The ISO 8601 shape [YYYY-MM-DDTHH:MM:SS[.ffffff]+00:00]. *)
Definition iso8601_utc (s : string) : Prop :=
  exists year month day hours minutes seconds fraction,
    s = year ++ "-" ++ month ++ "-" ++ day ++ "T"
        ++ hours ++ ":" ++ minutes ++ ":" ++ seconds ++ fraction ++ "+00:00"
    /\ digit_field 4 year /\ digit_field 2 month /\ digit_field 2 day
    /\ digit_field 2 hours /\ digit_field 2 minutes /\ digit_field 2 seconds
    /\ (fraction = ""
        \/ exists micros, fraction = "." ++ micros /\ digit_field 6 micros).

End Datetime.

(** ** The world the script runs in, and what it does to it *)

(** The JSON document of lines 112-147. *)
Record RequestParams : Type := mkRequestParams {
  input_bounds_bbox : list float;
  input_data_type : string;
  timeRange_from : string;
  timeRange_to : string;
  processing_upsampling : string;
  processing_downsampling : string;
  output_width : Z;
  output_height : Z;
  response_identifier : string;
  response_format_type : string;
  response_format_quality : Z;
  request_evalscript : string
}.

(** What [oauth.post] returns: status code, body bytes, body as text. *)
Record Response : Type := mkResponse {
  status_code : Z;
  content : string;
  text : string
}.

(** The token dictionary, in iteration order, values as they print. *)
Definition Token : Type := list (string * string).

Record World : Type := mkWorld {
  (** [open(path, "r")] then [read()]: [None] when either raises. *)
  read_text : string -> option string;
  (** Whether [open(path, "wb")] succeeds. *)
  writable : string -> bool;
  (** [oauth.fetch_token(token_url, client_secret, ...)] for a client id. *)
  token_endpoint : string -> string -> string -> result Token;
  (** [oauth.post(url, json=...)]. *)
  process_endpoint : string -> RequestParams -> result Response;
  (** [datetime.now(timezone.utc)]. *)
  utc_now : Datetime.datetime
}.

Inductive Event : Type :=
  | Printed (line : string)
  | OpenedForRead (path : string)
  | TokenRequested (url client_id client_secret : string)
  | Posted (url : string) (json : RequestParams)
  | OpenedForWrite (path : string).

Record State : Type := mkState {
  trace : list Event;
  disk : gmap string string
}.

Inductive outcome (A : Type) : Type :=
  | Done (a : A)
  | Exited
  | Uncaught (e : PyExc).
Arguments Done {A} a.
Arguments Exited {A}.
Arguments Uncaught {A} e.

Definition Prog (A : Type) : Type := State -> outcome A * State.

#[global] Instance prog_ret : MRet Prog := fun A a st => (Done a, st).
#[global] Instance prog_bind : MBind Prog := fun A B k m st =>
  match m st with
  | (Done a, st') => k a st'
  | (Exited, st') => (Exited, st')
  | (Uncaught e, st') => (Uncaught e, st')
  end.

Definition emit (e : Event) : Prog unit :=
  fun st => (Done tt, mkState (trace st ++ [e]) (disk st)).

Definition print (line : string) : Prog unit := emit (Printed line).

(** [exit()]. *)
Definition exit {A : Type} : Prog A := fun st => (Exited, st).

(** A pure step whose exception nobody catches. *)
Definition lift {A : Type} (r : result A) : Prog A :=
  fun st => match r with
            | Ok a => (Done a, st)
            | Raise e => (Uncaught e, st)
            end.

Definition token_url : string :=
  "https://identity.dataspace.copernicus.eu/auth/realms/CDSE/protocol/openid-connect/token".
Definition process_url : string :=
  "https://sh.dataspace.copernicus.eu/api/v1/process".

Fixpoint map_result {A B : Type} (f : A -> result B) (l : list A)
  : result (list B) :=
  match l with
  | [] => Ok []
  | a :: l' => b ← f a; bs ← map_result f l'; Ok (b :: bs)
  end.

Section Script.

(** Python's and the C library's own functions: [math.cos]'s [cos],
    [float(str)] and [str(float)]. *)
Variable cos : float -> float.
Variable float_of_str : string -> result float.
Variable str_of_float : float -> string.

Variable world : World.

Definition str_of_num (n : PyNum) : string :=
  match n with
  | PyInt k => pretty k
  | PyFloat x => str_of_float x
  end.

(** Lines 13-16. *)
Definition guidance_1 : string :=
  "Fill in client_id and client_secret for OAuth authentication!".
Definition guidance_2 : string :=
  "Create a free account at Copernicus and go here: https://shapps.dataspace.copernicus.eu/dashboard/#/account/settings".

Definition check_credentials (client_id client_secret : string) : Prog unit :=
  if (String.length client_id =? 0)%nat || (String.length client_secret =? 0)%nat
  then _ ← print guidance_1; _ ← print guidance_2; exit
  else mret tt.

(** Line 59. *)
Definition parse_box (s : string) : result (list float) :=
  map_result float_of_str (PyStr.split_on "," s).

(** Line 60. *)
Definition builtin_evalscript (brightness : PyNum) : string :=
  PyStr.replace "let exposure = 2;"
    ("let exposure = " ++ str_of_num brightness ++ ";") EVALSCRIPT.

(** Lines 63-68. *)
Definition load_evalscript (path : string) (current : string) : Prog string :=
  if (1 <? PyStr.len path)%nat then
    _ ← emit (OpenedForRead path);
    match read_text world path with
    | Some script => mret script
    | None =>
        _ ← print ("Cannot read evalscript " ++ path ++ ". Using default");
        mret current
    end
  else mret current.

(** Lines 71-73. *)
Definition fetch_token (client_id client_secret : string) : Prog Token :=
  _ ← emit (TokenRequested token_url client_id client_secret);
  lift (token_endpoint world token_url client_id client_secret).

(** Lines 77-80. *)
Fixpoint print_token (token : Token) : Prog unit :=
  match token with
  | [] => mret tt
  | (key, value) :: rest =>
      _ ← print (key ++ ": " ++ value); print_token rest
  end.

Definition show_token (flag : bool) (token : Token) : Prog unit :=
  if flag then _ ← print_token token; exit else mret tt.

(** Lines 104-106: [(start_date, end_date)] as text. *)
Definition time_range : result (string * string) :=
  let end_date := utc_now world in
  start ← Datetime.minus_days end_date 7;
  let start_date := Datetime.isoformat start in
  let end_date := Datetime.isoformat end_date in
  Ok (start_date, end_date).

(** Lines 112-147. *)
Definition build_request (bbox : list float) (start_date end_date : string)
    (width height : Z) (fmt : string) (quality : Z) (script : string)
  : RequestParams :=
  {| input_bounds_bbox := bbox;
     input_data_type := "sentinel-2-l2a";
     timeRange_from := start_date;
     timeRange_to := end_date;
     processing_upsampling := "BILINEAR";
     processing_downsampling := "BILINEAR";
     output_width := width;
     output_height := height;
     response_identifier := "default";
     response_format_type := fmt;
     response_format_quality := quality;
     request_evalscript := script |}.

(** Line 152. *)
Definition post (json : RequestParams) : Prog Response :=
  _ ← emit (Posted process_url json);
  lift (process_endpoint world process_url json).

(** Lines 155-156: [open(path, "wb")] creates or truncates the file,
    [write] fills it.  A file that could be opened takes the whole
    body: a [write] that fails on an open file is left out of the
    model. *)
Definition store (path bytes : string) : Prog unit :=
  fun st =>
    if writable world path
    then (Done tt, mkState (trace st) (<[path := bytes]> (disk st)))
    else (Uncaught (RuntimeFailure "OSError"), st).

Definition write_file (path bytes : string) : Prog unit :=
  _ ← emit (OpenedForWrite path);
  store path bytes.

(** Lines 153-158. *)
Definition handle_response (filename : string) (response : Response)
  : Prog unit :=
  if status_code response =? 200 then
    _ ← print ("Saving image " ++ filename);
    write_file filename (content response)
  else
    print ("An error occurred!" ++ PyStr.nl ++ "HTTP code: "
           ++ pretty (status_code response) ++ PyStr.nl ++ text response).

(** The script, for the credentials of lines 10-11 and the arguments
    that [parse_args] returned. *)
Definition main (client_id client_secret : string) (args : Args) : Prog unit :=
  _ ← check_credentials client_id client_secret;
  let HEIGHT := vyska args in
  let FORMAT := format args in
  let FILENAME := soubor args in
  let QUALITY := kvalita args in
  BOX ← lift (parse_box (box args));
  let EVALSCRIPT := builtin_evalscript (jas args) in
  EVALSCRIPT ← load_evalscript (evalscript args) EVALSCRIPT;
  token ← fetch_token client_id client_secret;
  _ ← show_token (ukaztoken args) token;
  '(width, height) ← lift (geometry cos BOX HEIGHT);
  _ ← print ("Final image dimensions: " ++ pretty width ++ "x"
             ++ pretty height ++ " pixels");
  '(start_date, end_date) ← lift time_range;
  let request_params :=
    build_request BOX start_date end_date width height FORMAT QUALITY
      EVALSCRIPT in
  response ← post request_params;
  handle_response FILENAME response.

End Script.

(** Lines 10-11 as the repository ships them. *)
Definition client_id : string := "".
Definition client_secret : string := "".

(** ** Observations on a run *)

Definition network_call (e : Event) : bool :=
  match e with
  | TokenRequested _ _ _ | Posted _ _ => true
  | _ => false
  end.

Definition file_opened (e : Event) : bool :=
  match e with
  | OpenedForRead _ | OpenedForWrite _ => true
  | _ => false
  end.

(** The events a run added to the trace it started from. *)
Definition added (before after : State) (events : list Event) : Prop :=
  trace after = (trace before ++ events)%list.

(** The text of line 68. *)
Definition warning (path : string) : string :=
  "Cannot read evalscript " ++ path ++ ". Using default".

(** The two parts of [EVALSCRIPT] around ["let exposure = 2;"]. *)
Definition script_head : string := String.substring 0 144 EVALSCRIPT.
Definition script_tail : string := String.substring 161 83 EVALSCRIPT.

(** ** Rounding to the nearest integer, as the specification words it

    [round_half_up x] is the integer nearest to a float, halves away
    from zero; it is what the specification's "round" asks of the width
    and the height, next to [Py.int_of_float], which the script calls. *)

Definition round_mantissa (m : positive) (e : Z) : Z :=
  match e with
  | Zneg k =>
      let q := Z.shiftr (Zpos m) (Zpos k) in
      let r := Zpos m - Z.shiftl q (Zpos k) in
      if Z.shiftl 1 (Zpos k) <=? 2 * r then q + 1 else q
  | _ => Py.trunc_mantissa m e
  end.

Definition round_half_up (x : float) : result Z :=
  match Prim2SF x with
  | S754_nan => Raise ValueError
  | S754_infinity _ => Raise OverflowError
  | S754_zero _ => Ok 0
  | S754_finite s m e =>
      Ok (if s then - round_mantissa m e else round_mantissa m e)
  end.

(** The width and the clamped height of the specification's wording. *)
Definition spec_width (HEIGHT : Z) (ratio : float) : result Z :=
  h ← Py.float_of_int HEIGHT;
  round_half_up (h * ratio)%float.

Definition spec_clamped_height (width : Z) (ratio : float) : result Z :=
  w ← Py.float_of_int width;
  q ← Py.truediv w ratio;
  round_half_up q.

(** [z] is the integer part of the finite float [x], towards zero:
    [x = (-1)^s * m * 2^e] and [|z| <= m * 2^e < |z| + 1]. *)
Definition truncation_of (x : float) (z : Z) : Prop :=
  match Prim2SF x with
  | S754_zero _ => z = 0
  | S754_finite s m e =>
      z = (if s then - Z.abs z else Z.abs z) /\
      (0 <= e -> Z.abs z = Zpos m * 2 ^ e) /\
      (e < 0 -> Z.abs z * 2 ^ (- e) <= Zpos m < (Z.abs z + 1) * 2 ^ (- e))
  | _ => False
  end.

(** The sign of a float with NaN left aside: [signed b x] holds when [x]
    is NaN or its sign bit is [b]. *)
Definition sf_signed (b : bool) (x : spec_float) : Prop :=
  match x with
  | S754_nan => True
  | S754_zero s | S754_infinity s | S754_finite s _ _ => s = b
  end.

Definition signed (b : bool) (x : float) : Prop := sf_signed b (Prim2SF x).

(** Every event that [m] appends satisfies [P], however [m] ends. *)
Definition emits {A : Type} (P : Event -> Prop) (m : Prog A) : Prop :=
  forall st o st', m st = (o, st') ->
    exists events, added st st' events /\ Forall P events.

(** [m] leaves the files on disk as they are, however it ends. *)
Definition keeps_disk {A : Type} (m : Prog A) : Prop :=
  forall st o st', m st = (o, st') -> disk st' = disk st.

(** [m] can end normally with the value [a]. *)
Definition returns {A : Type} (m : Prog A) (a : A) : Prop :=
  exists st st', m st = (Done a, st').

(** Lines 60-68 read as a value: the script that the request carries. *)
Definition effective_evalscript (str_of_float : float -> string)
    (world : World) (args : Args) : string :=
  if (1 <? PyStr.len (evalscript args))%nat then
    match read_text world (evalscript args) with
    | Some script => script
    | None => builtin_evalscript str_of_float (jas args)
    end
  else builtin_evalscript str_of_float (jas args).

(** The arguments with another [-E] value. *)
Definition with_evalscript (path : string) (args : Args) : Args :=
  {| soubor := soubor args; vyska := vyska args; box := box args;
     format := format args; kvalita := kvalita args; evalscript := path;
     jas := jas args; ukaztoken := ukaztoken args |}.

(** The request that a run with these arguments sends, if it sends one. *)
Definition request_of (cos : float -> float)
    (float_of_str : string -> result float) (str_of_float : float -> string)
    (world : World) (args : Args) (json : RequestParams) : Prop :=
  exists bbox width height start_date end_date,
    parse_box float_of_str (box args) = Ok bbox /\
    geometry cos bbox (vyska args) = Ok (width, height) /\
    time_range world = Ok (start_date, end_date) /\
    json = build_request bbox start_date end_date width height
             (format args) (kvalita args)
             (effective_evalscript str_of_float world args).

(** The events that a run of [main] can add to the trace. *)
Definition main_event (cos : float -> float)
    (float_of_str : string -> result float) (str_of_float : float -> string)
    (world : World) (id secret : string) (args : Args) (e : Event) : Prop :=
  match e with
  | Printed _ => True
  | OpenedForRead path =>
      path = evalscript args /\ (1 < PyStr.len path)%nat
  | TokenRequested url i s =>
      url = token_url /\ i = id /\ s = secret /\ id <> "" /\ secret <> ""
  | Posted url json =>
      url = process_url /\ ukaztoken args = false /\
      request_of cos float_of_str str_of_float world args json
  | OpenedForWrite path => path = soubor args
  end.

(** Whatever way [m] ends, the disk before and after are related by [Q]. *)
Definition disk_post {A : Type} (Q : gmap string string -> gmap string string -> Prop)
    (m : Prog A) : Prop :=
  forall st o st', m st = (o, st') -> Q (disk st) (disk st').

(** What a run of [main] can have done to the disk: nothing, or written
    the body of a 200 response to the output file. *)
Definition main_disk (cos : float -> float)
    (float_of_str : string -> result float) (str_of_float : float -> string)
    (world : World) (args : Args) (before after : gmap string string) : Prop :=
  after = before \/
  exists json response,
    request_of cos float_of_str str_of_float world args json /\
    process_endpoint world process_url json = Ok response /\
    status_code response = 200 /\
    after = <[soubor args := content response]> before.

(** The text of line 158. *)
Definition error_report (response : Response) : string :=
  "An error occurred!" ++ PyStr.nl ++ "HTTP code: "
  ++ pretty (status_code response) ++ PyStr.nl ++ text response.

(** A posted request carries [script] as its evalscript. *)
Definition posts_script (script : string) (e : Event) : Prop :=
  match e with
  | Posted _ json => request_evalscript json = script
  | _ => True
  end.

(** A posted request asks for the seven days that end at [now]. *)
Definition posts_last_week (now : Datetime.datetime) (e : Event) : Prop :=
  match e with
  | Posted _ json =>
      exists start,
        Datetime.minus_days now 7 = Ok start /\
        Datetime.instant now - Datetime.instant start = Datetime.week_us /\
        timeRange_from json = Datetime.isoformat start /\
        timeRange_to json = Datetime.isoformat now /\
        (Datetime.valid now ->
         Datetime.iso8601_utc (timeRange_from json) /\
         Datetime.iso8601_utc (timeRange_to json))
  | _ => True
  end.

(** The text ends with the UTC offset [+00:00]. *)
Definition has_utc_offset (s : string) : Prop :=
  exists local_time, s = local_time ++ "+00:00".

(** The default box of line 24 as floats, the argument that
    [math.cos] receives for it, [radians((50.2856 + 50.3378) / 2)], and
    the binary64 value nearest to its cosine, 0.6386106900993372. *)
Definition default_box : list float :=
  [0x1.e1f972474538fp+3; 0x1.9248e8a71de6ap+5;
   0x1.e734d6a161e4fp+3; 0x1.92b3d07c84b5ep+5]%float.
Definition default_cos_argument : float := 0x1.c196f461515a4p-1%float.
Definition default_cos_value : float := 0x1.46f7faf9b48ddp-1%float.

(** [c] is within one unit in the last place of [value]. *)
Definition within_one_ulp (value c : float) : Prop :=
  In c [next_down value; value; next_up value].

(** The order of two coordinates of a box: as the script assumes, or
    reversed. *)
Definition ordered (reversed : bool) (first second : float) : Prop :=
  if reversed then (second <? first)%float = true
  else (first <? second)%float = true.

(** ** Vocabulary for whole runs *)

(** The state with more events at the end of its trace. *)
Definition extend (st : State) (events : list Event) : State :=
  mkState (trace st ++ events) (disk st).

(** What lines 63-68 add to the trace. *)
Definition load_events (world : World) (path : string) : list Event :=
  if (1 <? PyStr.len path)%nat then
    match read_text world path with
    | Some _ => [OpenedForRead path]
    | None => [OpenedForRead path; Printed (warning path)]
    end
  else [].

(** What lines 78-79 print for a token. *)
Definition token_lines (token : Token) : list Event :=
  map (fun entry => Printed (fst entry ++ ": " ++ snd entry)) token.

(** The text of line 100. *)
Definition dimensions_line (width height : Z) : string :=
  "Final image dimensions: " ++ pretty width ++ "x" ++ pretty height
  ++ " pixels".

(** The token request of a run. *)
Definition token_request (id secret : string) : Event :=
  TokenRequested token_url id secret.

(** How often a character occurs in a text. *)
Fixpoint count_char (c : ascii) (s : string) : nat :=
  match s with
  | "" => O
  | String a s' => (if Ascii.eqb a c then 1 else 0) + count_char c s'
  end.

(** The network calls of a run, in order: none, the token request, or
    the token request and then one POST to the processing endpoint. *)
Definition network_shape (id secret : string) (calls : list Event) : Prop :=
  calls = [] \/ calls = [token_request id secret]
  \/ exists json, calls = [token_request id secret; Posted process_url json].

(** A posted request is the one that lines 59-147 compute from the
    arguments: the whole parsed box, the dimensions of the geometry for
    it, a width of at most 2500, the format and the quality as given. *)
Definition posted_as_computed (cos : float -> float)
    (float_of_str : string -> result float) (args : Args) (e : Event) : Prop :=
  match e with
  | Posted url json =>
      url = process_url
      /\ parse_box float_of_str (box args) = Ok (input_bounds_bbox json)
      /\ geometry cos (input_bounds_bbox json) (vyska args)
         = Ok (output_width json, output_height json)
      /\ output_width json <= MAX_WIDTH
      /\ response_format_type json = format args
      /\ response_format_quality json = kvalita args
      /\ input_data_type json = "sentinel-2-l2a"
  | _ => True
  end.

(** The files a run may open: the evalscript file, when its path is
    longer than one character, and the output file. *)
Definition opens_own_files (args : Args) (e : Event) : Prop :=
  match e with
  | OpenedForRead path =>
      path = evalscript args /\ (1 < PyStr.len path)%nat
  | OpenedForWrite path => path = soubor args
  | _ => True
  end.

(** ** A sample runtime, to run the script on concrete inputs *)

Module Sample.

(** The C library's cosine at the arguments the examples reach:
    [cos(0) = 1], and the mean latitude of the default box. *)
Definition cos (x : float) : float :=
  if (x =? 0)%float then 1%float
  else if (x =? 0x1.c196f461515a4p-1)%float then 0x1.46f7faf9b48ddp-1%float
  else nan.

Definition is_space (c : ascii) : bool :=
  Ascii.eqb c " " || Ascii.eqb c "009" || Ascii.eqb c "010" || Ascii.eqb c "013".

Fixpoint lstrip (s : string) : string :=
  match s with
  | String c s' => if is_space c then lstrip s' else s
  | "" => ""
  end.

Definition digit_of (c : ascii) : option Z :=
  let n := Z.of_nat (nat_of_ascii c) in
  if (48 <=? n) && (n <=? 57) then Some (n - 48) else None.

(** Digits of [s], with the value so far, the count of digits read
    and of those after the point. *)
Fixpoint digits (s : string) (seen_point : bool) (acc : Z) (count frac : nat)
  : option (Z * nat * nat) :=
  match s with
  | "" => Some (acc, count, frac)
  | String c s' =>
      match digit_of c with
      | Some d =>
          digits s' seen_point (10 * acc + d) (S count)
            (if seen_point then S frac else frac)
      | None =>
          if Ascii.eqb c "." && negb seen_point
          then digits s' true acc count frac
          else if forallb is_space (list_ascii_of_string s)
               then Some (acc, count, frac) else None
      end
  end.

(** [float(s)] for plain decimals [[-]ddd[.ddd]] of up to 15 digits,
    where one division of two exact floats rounds correctly. *)
Definition float_of_str (s : string) : result float :=
  let body := lstrip s in
  let '(negative, body) :=
    match body with
    | String "-" rest => (true, rest)
    | String "+" rest => (false, rest)
    | _ => (false, body)
    end in
  match digits body false 0 0 0 with
  | Some (n, count, frac) =>
      if (0 <? count)%nat && (count <=? 15)%nat then
        num ← Py.float_of_int n;
        den ← Py.float_of_int (10 ^ Z.of_nat frac);
        Ok (if negative then - (num / den) else num / den)%float
      else Raise ValueError
  | None => Raise ValueError
  end.

Fixpoint rstrip_zeros (fuel : nat) (digits : string) : string :=
  match fuel with
  | O => digits
  | S fuel' =>
      if String.eqb (String.substring (String.length digits - 1) 1 digits) "0"
      then rstrip_zeros fuel' (String.substring 0 (String.length digits - 1) digits)
      else digits
  end.

(** [str(x)] as the exact decimal expansion of [x], which is Python's
    text whenever that expansion is also the shortest that reads back
    as [x] ([3.0], [-0.5], [2.25]). *)
Definition str_of_float (x : float) : string :=
  match Prim2SF x with
  | S754_nan => "nan"
  | S754_infinity s => if s then "-inf" else "inf"
  | S754_zero s => if s then "-0.0" else "0.0"
  | S754_finite s m e =>
      let sign := if s then "-" else "" in
      match e with
      | Zneg k =>
          let q := Z.shiftr (Zpos m) (Zpos k) in
          let r := Zpos m - Z.shiftl q (Zpos k) in
          let frac := Datetime.zero_pad (Pos.to_nat k) (r * 5 ^ Zpos k) in
          let frac := rstrip_zeros (Pos.to_nat k) frac in
          sign ++ pretty q ++ "." ++ (if String.eqb frac "" then "0" else frac)
      | _ => sign ++ pretty (Py.trunc_mantissa m e) ++ ".0"
      end
  end.

Definition token : Token :=
  [("access_token", "abc"); ("expires_in", "600")].

(** No evalscript file is readable, the token endpoint answers, the
    imagery endpoint answers [status] with [body]. *)
Definition world (status : Z) (body : string) : World :=
  {| read_text := fun _ => None;
     writable := fun _ => true;
     token_endpoint := fun _ _ _ => Ok token;
     process_endpoint := fun _ _ => Ok (mkResponse status body body);
     utc_now := Datetime.mkDatetime 739924 20 19 5 123 |}.

(** The same world with one readable text file more. *)
Definition with_file (path contents : string) (w : World) : World :=
  {| read_text := fun p => if String.eqb p path then Some contents
                           else read_text w p;
     writable := writable w;
     token_endpoint := token_endpoint w;
     process_endpoint := process_endpoint w;
     utc_now := utc_now w |}.

Definition initial : State := mkState [] ∅.

Definition run (client_id client_secret : string) (args : Args)
    (status : Z) (body : string) : outcome unit * State :=
  main cos float_of_str str_of_float (world status body)
    client_id client_secret args initial.

End Sample.

(** ** More sample worlds and command lines *)

Module Worlds.

(** The identity endpoint refuses the credentials. *)
Definition refused : World :=
  {| read_text := fun _ => None;
     writable := fun _ => true;
     token_endpoint := fun _ _ _ => Raise (RuntimeFailure "InvalidClientError");
     process_endpoint := fun _ _ => Ok (mkResponse 200 "JPEG" "JPEG");
     utc_now := Datetime.mkDatetime 739924 20 19 5 123 |}.

(** The file [custom.js] holds a script of its own. *)
Definition custom_script : string := "//VERSION=3 custom".
Definition scripted : World :=
  Sample.with_file "custom.js" custom_script (Sample.world 200 "JPEG").

(** The imagery endpoint cannot be reached. *)
Definition unreachable : World :=
  {| read_text := fun _ => None;
     writable := fun _ => true;
     token_endpoint := fun _ _ _ => Ok Sample.token;
     process_endpoint := fun _ _ => Raise (RuntimeFailure "ConnectionError");
     utc_now := Datetime.mkDatetime 739924 20 19 5 123 |}.

(** No file can be opened for writing. *)
Definition read_only : World :=
  {| read_text := fun _ => None;
     writable := fun _ => false;
     token_endpoint := fun _ _ _ => Ok Sample.token;
     process_endpoint := fun _ _ => Ok (mkResponse 200 "JPEG" "JPEG");
     utc_now := Datetime.mkDatetime 739924 20 19 5 123 |}.

(** The arguments with another [-B] value, and with [-T]. *)
Definition with_box (text : string) (args : Args) : Args :=
  {| soubor := soubor args; vyska := vyska args; box := text;
     format := format args; kvalita := kvalita args;
     evalscript := evalscript args; jas := jas args;
     ukaztoken := ukaztoken args |}.

Definition with_token_flag (args : Args) : Args :=
  {| soubor := soubor args; vyska := vyska args; box := box args;
     format := format args; kvalita := kvalita args;
     evalscript := evalscript args; jas := jas args; ukaztoken := true |}.

(** The request of the default command line at
    2026-11-04T20:19:05.000123 UTC. *)
Definition default_request : RequestParams :=
  build_request default_box "2026-10-28T20:19:05.000123+00:00"
    "2026-11-04T20:19:05.000123+00:00" 1024 512 "image/jpeg" 90 EVALSCRIPT.

End Worlds.

(** * Properties *)

Local Open Scope list_scope.

(** ** Reasoning about runs: what a computation adds to the trace *)

Lemma added_refl st : added st st [].
Proof. unfold added. now rewrite app_nil_r. Qed.

Lemma added_trans st1 st2 st3 ev1 ev2 :
  added st1 st2 ev1 -> added st2 st3 ev2 -> added st1 st3 (ev1 ++ ev2).
Proof. unfold added. intros H1 H2. now rewrite H2, H1, app_assoc. Qed.

Lemma emits_ret {A : Type} P (a : A) : emits P (mret a).
Proof.
  intros st o st' H. injection H as <- <-.
  exists []. split; [apply added_refl | constructor].
Qed.

Lemma emits_exit {A : Type} P : emits P (@exit A).
Proof.
  intros st o st' H. injection H as <- <-.
  exists []. split; [apply added_refl | constructor].
Qed.

Lemma emits_lift {A : Type} P (r : result A) : emits P (lift r).
Proof.
  intros st o st' H. unfold lift in H.
  destruct r; injection H as <- <-;
    (exists []; split; [apply added_refl | constructor]).
Qed.

Lemma emits_emit P e : P e -> emits P (emit e).
Proof.
  intros He st o st' H. injection H as <- <-.
  exists [e]. split; [reflexivity | now repeat constructor].
Qed.

Lemma emits_bind {A B : Type} P (m : Prog A) (k : A -> Prog B) :
  emits P m -> (forall a, emits P (k a)) -> emits P (m ≫= k).
Proof.
  intros Hm Hk st o st' H. unfold mbind, prog_bind in H.
  destruct (m st) as [[a| |e] st1] eqn:E.
  - destruct (Hm _ _ _ E) as (ev1 & A1 & F1).
    destruct (Hk a _ _ _ H) as (ev2 & A2 & F2).
    exists (ev1 ++ ev2). split; [eapply added_trans; eauto | now apply Forall_app].
  - injection H as <- <-. eauto.
  - injection H as <- <-. eauto.
Qed.

Lemma emits_weaken {A : Type} (P Q : Event -> Prop) (m : Prog A) :
  (forall e, P e -> Q e) -> emits P m -> emits Q m.
Proof.
  intros HPQ Hm st o st' H. destruct (Hm _ _ _ H) as (ev & A1 & F1).
  exists ev. split; [assumption|]. eapply Forall_impl; eauto.
Qed.

Lemma keeps_disk_ret {A : Type} (a : A) : keeps_disk (mret a).
Proof. intros st o st' H. now injection H as <- <-. Qed.

Lemma keeps_disk_exit {A : Type} : keeps_disk (@exit A).
Proof. intros st o st' H. now injection H as <- <-. Qed.

Lemma keeps_disk_lift {A : Type} (r : result A) : keeps_disk (lift r).
Proof. intros st o st' H. unfold lift in H. destruct r; now injection H as <- <-. Qed.

Lemma keeps_disk_emit e : keeps_disk (emit e).
Proof. intros st o st' H. now injection H as <- <-. Qed.

Lemma keeps_disk_bind {A B : Type} (m : Prog A) (k : A -> Prog B) :
  keeps_disk m -> (forall a, keeps_disk (k a)) -> keeps_disk (m ≫= k).
Proof.
  intros Hm Hk st o st' H. unfold mbind, prog_bind in H.
  destruct (m st) as [[a| |e] st1] eqn:E.
  - rewrite (Hk a _ _ _ H). eauto.
  - injection H as <- <-. eauto.
  - injection H as <- <-. eauto.
Qed.

Ltac run_unfold :=
  unfold mbind, prog_bind, mret, prog_ret, print, emit, exit, lift.

Tactic Notation "run_unfold" "in" hyp(H) :=
  unfold mbind, prog_bind, mret, prog_ret, print, emit, exit, lift in H.

(** ** The shape of [isoformat] *)

Lemma string_app_assoc (a b c : string) :
  (a +:+ (b +:+ c) = (a +:+ b) +:+ c)%string.
Proof.
  induction a as [|ch a IH]; [reflexivity|].
  change (String ch (a +:+ (b +:+ c)) = String ch ((a +:+ b) +:+ c))%string.
  now rewrite IH.
Qed.

Lemma string_app_cons c (a b : string) :
  (String c a +:+ b = String c (a +:+ b))%string.
Proof. reflexivity. Qed.

Lemma string_length_app (a b : string) :
  String.length (a +:+ b)%string = (String.length a + String.length b)%nat.
Proof.
  induction a as [|c a IH]; [reflexivity|].
  rewrite string_app_cons. simpl. now rewrite IH.
Qed.

(** [len] on the texts the script meets most: the empty text is the
    only one of no character, and an ASCII byte is one character. *)
Lemma len_zero_iff (s : string) : PyStr.len s = O <-> s = "".
Proof.
  split; [|now intros ->]. destruct s; [reflexivity | discriminate].
Qed.

Lemma len_ascii_cons (a : ascii) (s : string) :
  PyStr.code a < 128 -> PyStr.len (String a s) = S (PyStr.len s).
Proof.
  intros A. unfold PyStr.len.
  change (PyStr.len_from 0 (String a s))
    with (S (PyStr.len_from (Nat.pred (PyStr.sequence_length (String a s))) s)).
  assert (N : forall lo hi, 128 <= lo -> PyStr.between lo hi a = false).
  { intros lo hi L. unfold PyStr.between.
    destruct (Z.leb_spec lo (PyStr.code a)); [lia | reflexivity]. }
  assert (E : PyStr.sequence_length (String a s) = 1%nat).
  { unfold PyStr.sequence_length, PyStr.leads_three, PyStr.leads_four.
    rewrite !N by lia. simpl.
    destruct s as [|b [|c [|d rest]]]; reflexivity. }
  now rewrite E.
Qed.

Lemma all_digits_app (a b : string) :
  Datetime.all_digits (a +:+ b)%string
  = Datetime.all_digits a && Datetime.all_digits b.
Proof.
  induction a as [|c a IH]; [reflexivity|].
  rewrite string_app_cons. simpl. now rewrite IH, andb_assoc.
Qed.

Lemma pretty_N_char_is_digit k : Datetime.is_digit (pretty_N_char k) = true.
Proof.
  unfold pretty_N_char. repeat case_match; reflexivity.
Qed.

(** The digits that [pretty] puts before [s] for a number below
    [10^width]: at most [width] of them, one at least unless the number
    is zero. *)
Lemma pretty_N_go_digits (width : nat) : forall (x : N) (s : string),
  (x < 10 ^ N.of_nat width)%N ->
  exists t, pretty_N_go x s = (t +:+ s)%string
            /\ (String.length t <= width)%nat
            /\ Datetime.all_digits t = true
            /\ (x <> 0%N -> t <> "").
Proof.
  induction width as [|width IH]; intros x s Hx.
  - assert (x = 0%N) as -> by (simpl in Hx; lia).
    exists "". rewrite pretty_N_go_0. repeat split; auto.
  - destruct (N.eq_dec x 0%N) as [->|Hpos].
    + exists "". rewrite pretty_N_go_0. repeat split; auto. simpl. lia.
    + rewrite pretty_N_go_step by lia.
      assert (Hdiv : (x `div` 10 < 10 ^ N.of_nat width)%N).
      { apply N.Div0.div_lt_upper_bound.
        rewrite Nat2N.inj_succ, N.pow_succ_r' in Hx. lia. }
      destruct (IH (x `div` 10)%N (String (pretty_N_char (x `mod` 10)) s) Hdiv)
        as (t & E & L & D & _).
      exists (t +:+ String (pretty_N_char (x `mod` 10)) "")%string.
      rewrite E, <- string_app_assoc. split; [reflexivity|].
      rewrite string_length_app, all_digits_app. simpl.
      rewrite D, pretty_N_char_is_digit. repeat split; auto; [lia|].
      intros _. destruct t; discriminate.
Qed.

Lemma pretty_Z_digits (width : nat) (n : Z) :
  (0 < width)%nat -> 0 <= n < 10 ^ Z.of_nat width ->
  (1 <= String.length (pretty n) <= width)%nat
  /\ Datetime.all_digits (pretty n) = true.
Proof.
  intros Hw Hn. destruct n as [|p|p]; try lia.
  - simpl. split; [lia | reflexivity].
  - change (pretty (Z.pos p)) with (pretty_N_go (N.pos p) "").
    destruct (pretty_N_go_digits width (N.pos p) "") as (t & E & L & D & NE).
    { apply N2Z.inj_lt. rewrite N2Z.inj_pow, nat_N_Z. simpl. lia. }
    rewrite E. replace (t +:+ "")%string with t.
    + split; [|exact D]. split; [|exact L].
      destruct t; [now destruct NE | simpl; lia].
    + clear. induction t as [|c t IH]; [reflexivity|].
      rewrite string_app_cons. now rewrite <- IH.
Qed.

Lemma zeros_digits k :
  String.length (Datetime.zeros k) = k
  /\ Datetime.all_digits (Datetime.zeros k) = true.
Proof.
  induction k as [|k [L D]]; [split; reflexivity|].
  simpl. rewrite L, D. split; reflexivity.
Qed.

(** ["%0<width>d"] of a number below [10^width] is [width] digits. *)
Lemma zero_pad_digits (width : nat) (n : Z) :
  (0 < width)%nat -> 0 <= n < 10 ^ Z.of_nat width ->
  Datetime.digit_field width (Datetime.zero_pad width n).
Proof.
  intros Hw Hn. destruct (pretty_Z_digits width n Hw Hn) as [[L1 L2] D].
  destruct (zeros_digits (width - String.length (pretty n))) as [ZL ZD].
  unfold Datetime.digit_field, Datetime.zero_pad.
  rewrite string_length_app, all_digits_app, ZL, ZD, D.
  split; [lia | reflexivity].
Qed.

(** For every ordinal from 0001-01-01 to 9999-12-31, the calendar date
    has a year of at most four digits, a month from 1 to 12 and a day
    from 1 to 31. *)
Lemma ord2ymd_range n :
  1 <= n <= Datetime.MAXORDINAL ->
  exists y m d,
    Datetime.ord2ymd n = (y, m, d)
    /\ 1 <= y <= 9999 /\ 1 <= m <= 12 /\ 1 <= d <= 31.
Proof.
  unfold Datetime.MAXORDINAL, Datetime.ord2ymd,
    Datetime.DI400Y, Datetime.DI100Y, Datetime.DI4Y.
  intros Hn. rewrite Z.shiftr_div_pow2 by lia. change (2 ^ 5) with 32.
  pose proof (Z.div_mod (n - 1) 146097 ltac:(lia)) as E400.
  pose proof (Z.mod_pos_bound (n - 1) 146097 ltac:(lia)) as B400.
  set (n400 := (n - 1) / 146097) in *. set (r400 := (n - 1) mod 146097) in *.
  pose proof (Z.div_mod r400 36524 ltac:(lia)) as E100.
  pose proof (Z.mod_pos_bound r400 36524 ltac:(lia)) as B100.
  set (n100 := r400 / 36524) in *. set (r100 := r400 mod 36524) in *.
  pose proof (Z.div_mod r100 1461 ltac:(lia)) as E4.
  pose proof (Z.mod_pos_bound r100 1461 ltac:(lia)) as B4.
  set (n4 := r100 / 1461) in *. set (r4 := r100 mod 1461) in *.
  pose proof (Z.div_mod r4 365 ltac:(lia)) as E1.
  pose proof (Z.mod_pos_bound r4 365 ltac:(lia)) as B1.
  set (n1 := r4 / 365) in *. set (r1 := r4 mod 365) in *.
  pose proof (Z.div_mod (r1 + 50) 32 ltac:(lia)) as EM.
  pose proof (Z.mod_pos_bound (r1 + 50) 32 ltac:(lia)) as BM.
  set (month := (r1 + 50) / 32) in *. set (rm := (r1 + 50) mod 32) in *.
  clearbody n400 r400 n100 r100 n4 r4 n1 r1 month rm.
  cbv zeta.
  destruct ((n1 =? 4) || (n100 =? 4)) eqn:Last.
  - eexists _, _, _. split; [reflexivity|].
    apply orb_true_iff in Last. repeat split; try lia.
  - apply orb_false_iff in Last as [L1 L100].
    apply Z.eqb_neq in L1. apply Z.eqb_neq in L100.
    generalize ((n1 =? 3) && (negb (n4 =? 24) || (n100 =? 3))).
    intros leapyear.
    assert (Hy : 1 <= n400 * 400 + 1 + n100 * 100 + n4 * 4 + n1 <= 9999) by lia.
    assert (Hm : month = 1 \/ month = 2 \/ month = 3 \/ month = 4 \/ month = 5
                 \/ month = 6 \/ month = 7 \/ month = 8 \/ month = 9
                 \/ month = 10 \/ month = 11 \/ month = 12) by lia.
    repeat (destruct Hm as [Hm|Hm]); rewrite Hm in *;
      unfold Datetime.DAYS_BEFORE_MONTH, Datetime.DAYS_IN_MONTH;
      destruct leapyear; simpl;
      match goal with
      | |- context [if ?r <? ?p then _ else _] =>
          destruct (Z.ltb_spec r p)
      end;
      simpl; eexists _, _, _; (split; [reflexivity|]); lia.
Qed.

(** [isoformat] writes a valid datetime as
    [YYYY-MM-DDTHH:MM:SS[.ffffff]+00:00]. *)
Lemma isoformat_iso8601 d :
  Datetime.valid d -> Datetime.iso8601_utc (Datetime.isoformat d).
Proof.
  intros (Ho & Hh & Hm & Hs & Hu).
  destruct (ord2ymd_range _ Ho) as (y & m & dd & E & Hy & Hmo & Hd).
  unfold Datetime.isoformat. rewrite E.
  exists (Datetime.zero_pad 4 y), (Datetime.zero_pad 2 m),
    (Datetime.zero_pad 2 dd), (Datetime.zero_pad 2 (Datetime.hour d)),
    (Datetime.zero_pad 2 (Datetime.minute d)),
    (Datetime.zero_pad 2 (Datetime.second d)),
    (if Datetime.microsecond d =? 0 then ""
     else ("." +:+ Datetime.zero_pad 6 (Datetime.microsecond d))%string).
  split; [reflexivity|].
  repeat (split; [apply zero_pad_digits; simpl; lia|]).
  destruct (Datetime.microsecond d =? 0); [now left|right].
  eexists. split; [reflexivity|]. apply zero_pad_digits; simpl; lia.
Qed.

Lemma minus_days_valid d n d' :
  Datetime.valid d -> Datetime.minus_days d n = Ok d' -> Datetime.valid d'.
Proof.
  unfold Datetime.valid, Datetime.minus_days. intros V.
  destruct (_ && _) eqn:R; [|discriminate]. intros [= <-]. simpl.
  apply andb_prop in R as [R1 R2]. lia.
Qed.

(** ** The stages of the script *)

Section ScriptFacts.

Variable cos : float -> float.
Variable float_of_str : string -> result float.
Variable str_of_float : float -> string.
Variable world : World.

(** The built-in script with the brightness written into it: line 60
    changes the one statement ["let exposure = 2;"] and nothing else. *)
Lemma builtin_evalscript_eq brightness :
  builtin_evalscript str_of_float brightness
  = (script_head
     +:+ ("let exposure = " +:+ str_of_num str_of_float brightness +:+ ";")
     +:+ script_tail)%string.
Proof.
  unfold builtin_evalscript.
  generalize (str_of_num str_of_float brightness). intros t.
  reflexivity.
Qed.

Lemma script_parts : (script_head +:+ "let exposure = 2;" +:+ script_tail)%string = EVALSCRIPT.
Proof. reflexivity. Qed.

Lemma builtin_evalscript_default :
  builtin_evalscript str_of_float (PyInt 2) = EVALSCRIPT.
Proof. reflexivity. Qed.

Lemma builtin_evalscript_not_empty brightness :
  builtin_evalscript str_of_float brightness <> "".
Proof. rewrite builtin_evalscript_eq. discriminate. Qed.

Lemma check_credentials_blank id secret st :
  id = "" \/ secret = "" ->
  check_credentials id secret st
  = (Exited, mkState (trace st ++ [Printed guidance_1; Printed guidance_2])
               (disk st)).
Proof.
  intros H. unfold check_credentials.
  replace ((String.length id =? 0)%nat || (String.length secret =? 0)%nat)
    with true.
  - run_unfold. simpl. now rewrite <- app_assoc.
  - destruct H as [-> | ->]; simpl; [reflexivity | now rewrite orb_true_r].
Qed.

Lemma check_credentials_filled id secret st :
  id <> "" -> secret <> "" -> check_credentials id secret st = (Done tt, st).
Proof.
  intros Hi Hs. unfold check_credentials.
  destruct id; [congruence|]. destruct secret; [congruence|]. reflexivity.
Qed.

Lemma load_evalscript_short path current st :
  (PyStr.len path <= 1)%nat ->
  load_evalscript world path current st = (Done current, st).
Proof.
  intros H. unfold load_evalscript.
  destruct (Nat.ltb_spec 1 (PyStr.len path)); [lia | reflexivity].
Qed.

Lemma load_evalscript_long path current st :
  (1 < PyStr.len path)%nat ->
  load_evalscript world path current st
  = match read_text world path with
    | Some script =>
        (Done script, mkState (trace st ++ [OpenedForRead path]) (disk st))
    | None =>
        (Done current,
         mkState (trace st ++ [OpenedForRead path; Printed (warning path)])
           (disk st))
    end.
Proof.
  intros H. unfold load_evalscript.
  destruct (Nat.ltb_spec 1 (PyStr.len path)); [| lia].
  run_unfold. simpl. destruct (read_text world path); simpl.
  - reflexivity.
  - now rewrite <- app_assoc.
Qed.

Lemma handle_response_ok filename response st :
  status_code response = 200 ->
  handle_response world filename response st
  = if writable world filename
    then (Done tt,
          mkState (trace st ++ [Printed ("Saving image " +:+ filename);
                                OpenedForWrite filename])
            (<[filename := content response]> (disk st)))
    else (Uncaught (RuntimeFailure "OSError"),
          mkState (trace st ++ [Printed ("Saving image " +:+ filename);
                                OpenedForWrite filename])
            (disk st)).
Proof.
  intros H. unfold handle_response, write_file, store. rewrite H.
  run_unfold. simpl. rewrite <- app_assoc. simpl.
  destruct (writable world filename); reflexivity.
Qed.

Lemma handle_response_error filename response st :
  status_code response <> 200 ->
  handle_response world filename response st
  = (Done tt,
     mkState (trace st ++
              [Printed ("An error occurred!" +:+ PyStr.nl +:+ "HTTP code: "
                        +:+ pretty (status_code response) +:+ PyStr.nl
                        +:+ text response)])
       (disk st)).
Proof.
  intros H. unfold handle_response.
  destruct (Z.eqb_spec (status_code response) 200); [contradiction|].
  reflexivity.
Qed.


Lemma emits_bind_ret {A B : Type} P (m : Prog A) (k : A -> Prog B) :
  emits P m -> (forall a, returns m a -> emits P (k a)) -> emits P (m ≫= k).
Proof.
  intros Hm Hk st o st' H. unfold mbind, prog_bind in H.
  destruct (m st) as [[a| |e] st1] eqn:E.
  - destruct (Hm _ _ _ E) as (ev1 & A1 & F1).
    assert (R : returns m a) by (now exists st, st1).
    destruct (Hk a R _ _ _ H) as (ev2 & A2 & F2).
    exists (ev1 ++ ev2). split; [eapply added_trans; eauto | now apply Forall_app].
  - injection H as <- <-. eauto.
  - injection H as <- <-. eauto.
Qed.

Lemma returns_lift {A : Type} (r : result A) a : returns (lift r) a -> r = Ok a.
Proof.
  intros (st & st' & H). unfold lift in H. destruct r; congruence.
Qed.

Lemma returns_check_credentials id secret u :
  returns (check_credentials id secret) u -> id <> "" /\ secret <> "".
Proof.
  intros (st & st' & H).
  split; intros ->; rewrite check_credentials_blank in H by auto; discriminate.
Qed.

Lemma returns_load_evalscript args script :
  returns (load_evalscript world (evalscript args)
             (builtin_evalscript str_of_float (jas args))) script ->
  script = effective_evalscript str_of_float world args.
Proof.
  intros (st & st' & H). unfold effective_evalscript.
  destruct (Nat.ltb_spec 1 (PyStr.len (evalscript args))) as [L|L].
  - rewrite load_evalscript_long in H by assumption.
    destruct (read_text world (evalscript args)); congruence.
  - rewrite load_evalscript_short in H by assumption. congruence.
Qed.

Lemma returns_show_token flag token u :
  returns (show_token flag token) u -> flag = false.
Proof.
  intros (st & st' & H). destruct flag; [|reflexivity].
  unfold show_token in H. run_unfold in H.
  destruct (print_token token st) as [[[]| |e] st1]; discriminate.
Qed.

Lemma emits_print_token P token :
  (forall line, P (Printed line)) -> emits P (print_token token).
Proof.
  intros HP. induction token as [|[key value] rest IH]; simpl.
  - apply emits_ret.
  - apply emits_bind; [apply emits_emit, HP | intros _; exact IH].
Qed.

Lemma emits_load_evalscript P path current :
  (forall line, P (Printed line)) ->
  ((1 < PyStr.len path)%nat -> P (OpenedForRead path)) ->
  emits P (load_evalscript world path current).
Proof.
  intros HP HO. unfold load_evalscript.
  destruct (Nat.ltb_spec 1 (PyStr.len path)) as [L|L]; [|apply emits_ret].
  apply emits_bind; [apply emits_emit; auto | intros _].
  destruct (read_text world path); [apply emits_ret|].
  apply emits_bind; [apply emits_emit, HP | intros _; apply emits_ret].
Qed.

Lemma emits_handle_response P filename response :
  (forall line, P (Printed line)) -> P (OpenedForWrite filename) ->
  emits P (handle_response world filename response).
Proof.
  intros HP HW. unfold handle_response.
  destruct (status_code response =? 200); [|apply emits_emit, HP].
  apply emits_bind; [apply emits_emit, HP | intros _].
  unfold write_file. apply emits_bind; [apply emits_emit, HW | intros _].
  intros st o st' H. unfold store in H.
  destruct (writable world filename); injection H as <- <-;
    (exists []; split; [unfold added; simpl; now rewrite app_nil_r | constructor]).
Qed.

(** Every event of a run of the script is one of [main_event]: what is
    printed aside, the evalscript file is opened only for a path longer
    than one character, the token is requested only with both
    credentials filled in, and a request is posted only with the box,
    dimensions, time range and script that the earlier lines computed. *)
Lemma main_events id secret args :
  emits (main_event cos float_of_str str_of_float world id secret args)
    (main cos float_of_str str_of_float world id secret args).
Proof.
  unfold main.
  apply emits_bind_ret.
  { unfold check_credentials.
    destruct (_ || _); [|apply emits_ret].
    repeat (apply emits_bind; [apply emits_emit; exact I | intros _]).
    apply emits_exit. }
  intros [] [Hid Hsecret]%returns_check_credentials.
  apply emits_bind_ret; [apply emits_lift|]. intros bbox Hbox%returns_lift.
  apply emits_bind_ret.
  { apply emits_load_evalscript; simpl; auto. }
  intros script Hscript%returns_load_evalscript. subst script.
  apply emits_bind_ret.
  { unfold fetch_token. apply emits_bind; [apply emits_emit; simpl; auto | intros _].
    apply emits_lift. }
  intros token _.
  apply emits_bind_ret.
  { unfold show_token. destruct (ukaztoken args); [|apply emits_ret].
    apply emits_bind; [apply emits_print_token; intros; exact I | intros _].
    apply emits_exit. }
  intros [] Hflag%returns_show_token.
  apply emits_bind_ret; [apply emits_lift|].
  intros [width height] Hgeo%returns_lift.
  apply emits_bind_ret; [apply emits_emit; exact I|]. intros [] _.
  apply emits_bind_ret; [apply emits_lift|].
  intros [start_date end_date] Htime%returns_lift.
  apply emits_bind_ret.
  { unfold post. apply emits_bind; [|intros _; apply emits_lift].
    apply emits_emit. simpl. repeat split; auto.
    exists bbox, width, height, start_date, end_date. auto. }
  intros response _.
  apply emits_handle_response; simpl; auto.
Qed.

Lemma disk_post_bind_keep {A B : Type} Q (m : Prog A) (k : A -> Prog B) :
  (forall d, Q d d) -> keeps_disk m ->
  (forall a, returns m a -> disk_post Q (k a)) -> disk_post Q (m ≫= k).
Proof.
  intros Hrefl Hm Hk st o st' H. unfold mbind, prog_bind in H.
  destruct (m st) as [[a| |e] st1] eqn:E.
  - assert (R : returns m a) by (now exists st, st1).
    rewrite <- (Hm _ _ _ E). exact (Hk a R _ _ _ H).
  - injection H as <- <-. rewrite (Hm _ _ _ E). apply Hrefl.
  - injection H as <- <-. rewrite (Hm _ _ _ E). apply Hrefl.
Qed.

Lemma keeps_disk_print_token token : keeps_disk (print_token token).
Proof.
  induction token as [|[key value] rest IH]; simpl.
  - apply keeps_disk_ret.
  - apply keeps_disk_bind; [apply keeps_disk_emit | intros _; exact IH].
Qed.

Lemma keeps_disk_check_credentials id secret :
  keeps_disk (check_credentials id secret).
Proof.
  unfold check_credentials. destruct (_ || _); [|apply keeps_disk_ret].
  repeat (apply keeps_disk_bind; [apply keeps_disk_emit | intros _]).
  apply keeps_disk_exit.
Qed.

Lemma keeps_disk_load_evalscript path current :
  keeps_disk (load_evalscript world path current).
Proof.
  unfold load_evalscript. destruct (_ <? _)%nat; [|apply keeps_disk_ret].
  apply keeps_disk_bind; [apply keeps_disk_emit | intros _].
  destruct (read_text world path); [apply keeps_disk_ret|].
  apply keeps_disk_bind; [apply keeps_disk_emit | intros _; apply keeps_disk_ret].
Qed.

Lemma keeps_disk_fetch_token id secret : keeps_disk (fetch_token world id secret).
Proof.
  unfold fetch_token.
  apply keeps_disk_bind; [apply keeps_disk_emit | intros _; apply keeps_disk_lift].
Qed.

Lemma keeps_disk_show_token flag token : keeps_disk (show_token flag token).
Proof.
  unfold show_token. destruct flag; [|apply keeps_disk_ret].
  apply keeps_disk_bind; [apply keeps_disk_print_token | intros _].
  apply keeps_disk_exit.
Qed.

Lemma keeps_disk_post json : keeps_disk (post world json).
Proof.
  unfold post.
  apply keeps_disk_bind; [apply keeps_disk_emit | intros _; apply keeps_disk_lift].
Qed.

Lemma returns_post json response :
  returns (post world json) response ->
  process_endpoint world process_url json = Ok response.
Proof.
  intros (st & st' & H). unfold post in H. run_unfold in H. simpl in H.
  destruct (process_endpoint world process_url json); congruence.
Qed.

(** The output file is the only file a run touches, and only with the
    body of a response whose status is 200. *)
Lemma main_disk_post id secret args :
  disk_post (main_disk cos float_of_str str_of_float world args)
    (main cos float_of_str str_of_float world id secret args).
Proof.
  assert (Hrefl : forall d, main_disk cos float_of_str str_of_float world args d d)
    by (intros d; now left).
  unfold main.
  apply disk_post_bind_keep; [exact Hrefl | apply keeps_disk_check_credentials |].
  intros [] _.
  apply disk_post_bind_keep; [exact Hrefl | apply keeps_disk_lift |].
  intros bbox Hbox%returns_lift.
  apply disk_post_bind_keep; [exact Hrefl | apply keeps_disk_load_evalscript |].
  intros script Hscript%returns_load_evalscript. subst script.
  apply disk_post_bind_keep; [exact Hrefl | apply keeps_disk_fetch_token |].
  intros token _.
  apply disk_post_bind_keep; [exact Hrefl | apply keeps_disk_show_token |].
  intros [] _.
  apply disk_post_bind_keep; [exact Hrefl | apply keeps_disk_lift |].
  intros [width height] Hgeo%returns_lift.
  apply disk_post_bind_keep; [exact Hrefl | apply keeps_disk_emit |].
  intros [] _.
  apply disk_post_bind_keep; [exact Hrefl | apply keeps_disk_lift |].
  intros [start_date end_date] Htime%returns_lift.
  apply disk_post_bind_keep; [exact Hrefl | apply keeps_disk_post |].
  intros response Hresp%returns_post.
  intros st o st' H.
  destruct (Z.eq_dec (status_code response) 200) as [E|E].
  - rewrite handle_response_ok in H by assumption.
    destruct (writable world (soubor args)); injection H as <- <-; simpl.
    + right. eexists _, response. repeat split; eauto.
      exists bbox, width, height, start_date, end_date. auto.
    + now left.
  - rewrite handle_response_error in H by assumption.
    injection H as <- <-. now left.
Qed.

(** ** Credentials (lines 13-16) *)

(** C4. If the client ID or the client secret is the empty string, the
    program prints the two lines of guidance and terminates through
    [exit()] before any network call: neither the token exchange nor the
    imagery POST is issued, and no file is touched. *)
Theorem blank_credentials_stop_before_network id secret args st :
  id = "" \/ secret = "" ->
  exists st',
    main cos float_of_str str_of_float world id secret args st = (Exited, st')
    /\ added st st' [Printed guidance_1; Printed guidance_2]
    /\ List.filter network_call (trace st') = List.filter network_call (trace st)
    /\ disk st' = disk st.
Proof.
  intros H. unfold main. unfold mbind at 1. unfold prog_bind.
  rewrite check_credentials_blank by assumption.
  eexists. split; [reflexivity|]. simpl. repeat split.
  rewrite List.filter_app. simpl. now rewrite app_nil_r.
Qed.

(** ** The evalscript (lines 60-68) *)

(** X15. For every custom evalscript path of more than one character,
    as [len] counts, whose file cannot be read, the program opens it,
    prints the warning, does not abort, and the script it goes on with,
    and posts, is the built-in one with the brightness written in place
    of the [2] of ["let exposure = 2;"], which is not empty; a file at
    such a path that reads as the empty string is taken as it is. *)
Theorem unreadable_evalscript_falls_back id secret args st :
  (1 < PyStr.len (evalscript args))%nat ->
  let path := evalscript args in
  let builtin := builtin_evalscript str_of_float (jas args) in
  (read_text world path = None ->
     load_evalscript world path builtin st
     = (Done builtin,
        mkState (trace st ++ [OpenedForRead path; Printed (warning path)])
          (disk st))
     /\ builtin
        = (script_head
           +:+ ("let exposure = " +:+ str_of_num str_of_float (jas args) +:+ ";")
           +:+ script_tail)%string
     /\ builtin <> ""
     /\ emits (posts_script builtin)
          (main cos float_of_str str_of_float world id secret args))
  /\ (read_text world path = Some "" ->
     load_evalscript world path builtin st
     = (Done "", mkState (trace st ++ [OpenedForRead path]) (disk st))
     /\ emits (posts_script "")
          (main cos float_of_str str_of_float world id secret args)).
Proof.
  intros Hlen path builtin.
  assert (Hpost : forall script,
             effective_evalscript str_of_float world args = script ->
             emits (posts_script script)
               (main cos float_of_str str_of_float world id secret args)).
  { intros script Heff. eapply emits_weaken; [|apply main_events].
    intros [] He; simpl; auto.
    destruct He as (_ & _ & (bbox & w & h & s & e & _ & _ & _ & ->)).
    simpl. exact Heff. }
  assert (Hlt : (1 <? PyStr.len (evalscript args))%nat = true)
    by now apply Nat.ltb_lt.
  split; intros Hread.
  - split; [|split; [|split]].
    + rewrite load_evalscript_long by assumption. fold path. now rewrite Hread.
    + apply builtin_evalscript_eq.
    + apply builtin_evalscript_not_empty.
    + apply Hpost. unfold effective_evalscript. rewrite Hlt.
      fold path. now rewrite Hread.
  - split.
    + rewrite load_evalscript_long by assumption. fold path. now rewrite Hread.
    + apply Hpost. unfold effective_evalscript. rewrite Hlt.
      fold path. now rewrite Hread.
Qed.

(** C10. For every invocation whose custom-evalscript argument is one
    character long, as [len] counts (one character, of whatever number
    of bytes), the program never opens that file and prints no warning:
    lines 63-68 leave the trace as it is and keep the built-in script,
    whatever the file holds; that script is the default one with the
    brightness written in place of the [2] of ["let exposure = 2;"] and
    nothing else changed; the whole run is the run without [-E], it
    opens no file for reading and every request it posts carries that
    script. *)
Theorem one_character_path_is_ignored id secret args :
  PyStr.len (evalscript args) = 1%nat ->
  let builtin := builtin_evalscript str_of_float (jas args) in
  (forall st, load_evalscript world (evalscript args) builtin st = (Done builtin, st))
  /\ builtin
     = (script_head
        +:+ ("let exposure = " +:+ str_of_num str_of_float (jas args) +:+ ";")
        +:+ script_tail)%string
  /\ main cos float_of_str str_of_float world id secret args
     = main cos float_of_str str_of_float world id secret (with_evalscript "" args)
  /\ emits (fun e => (forall path, e <> OpenedForRead path)
                     /\ posts_script builtin e)
       (main cos float_of_str str_of_float world id secret args).
Proof.
  intros Hlen builtin. split; [|split; [|split]].
  - intros st. apply load_evalscript_short. lia.
  - apply builtin_evalscript_eq.
  - unfold main, load_evalscript, with_evalscript. simpl. now rewrite Hlen.
  - eapply emits_weaken; [|apply main_events].
    intros [] He; simpl; auto; try (split; [discriminate | exact I]).
    + simpl in He. destruct He as [-> L]. lia.
    + split; [discriminate|].
      destruct He as (_ & _ & (bbox & w & h & s & e & _ & _ & _ & ->)).
      simpl. unfold effective_evalscript. now rewrite Hlen.
Qed.

(** ** The response (lines 152-158) *)

(** C6. For every response to the imagery POST: when its status code is
    200 the output file, once opened for writing, holds exactly the bytes
    of the response body, in place of whatever it held, and no other file
    changes; when its status code is not 200 the disk stays as it is and
    the status code and the body text are printed.  Over a whole run,
    the disk changes in no other way. *)
Theorem response_status_decides_output id secret args filename response st :
  (status_code response = 200 -> writable world filename = true ->
     exists st',
       handle_response world filename response st = (Done tt, st')
       /\ disk st' !! filename = Some (content response)
       /\ disk st' = <[filename := content response]> (disk st))
  /\ (status_code response <> 200 ->
     exists st',
       handle_response world filename response st = (Done tt, st')
       /\ disk st' = disk st
       /\ added st st' [Printed (error_report response)])
  /\ disk_post (main_disk cos float_of_str str_of_float world args)
       (main cos float_of_str str_of_float world id secret args).
Proof.
  repeat split.
  - intros H200 Hw. rewrite handle_response_ok by assumption. rewrite Hw.
    eexists. split; [reflexivity|]. simpl. split; [|reflexivity].
    apply lookup_insert_eq.
  - intros Herr. rewrite handle_response_error by assumption.
    eexists. split; [reflexivity|]. split; reflexivity.
  - apply main_disk_post.
Qed.

(** ** The time range (lines 104-106) *)

Lemma isoformat_has_utc_offset d : has_utc_offset (Datetime.isoformat d).
Proof.
  unfold has_utc_offset, Datetime.isoformat.
  destruct (Datetime.ord2ymd (Datetime.ordinal d)) as [[y m] dd].
  eexists. rewrite !string_app_assoc. reflexivity.
Qed.

Lemma minus_days_instant d n d' :
  Datetime.minus_days d n = Ok d' ->
  Datetime.instant d - Datetime.instant d' = n * (24 * 60 * 60 * 1000000).
Proof.
  unfold Datetime.minus_days. destruct (_ && _); [|discriminate].
  intros [= <-]. unfold Datetime.instant. simpl. lia.
Qed.

(** C8. For every invocation that reaches the request builder, the time
    range of the request spans exactly the seven days that end at the
    current UTC instant: [to] is the ISO text of now, [from] that of the
    instant seven days earlier, both texts end with the offset [+00:00],
    and for a clock inside the years 1 to 9999 both have the ISO 8601
    shape [YYYY-MM-DDTHH:MM:SS[.ffffff]+00:00]. *)
Theorem time_range_spans_last_seven_days id secret args :
  (forall start_date end_date,
     time_range world = Ok (start_date, end_date) ->
     exists start,
       Datetime.minus_days (utc_now world) 7 = Ok start
       /\ Datetime.instant (utc_now world) - Datetime.instant start
          = Datetime.week_us
       /\ start_date = Datetime.isoformat start
       /\ end_date = Datetime.isoformat (utc_now world)
       /\ has_utc_offset start_date /\ has_utc_offset end_date
       /\ (Datetime.valid (utc_now world) ->
           Datetime.iso8601_utc start_date /\ Datetime.iso8601_utc end_date))
  /\ emits (posts_last_week (utc_now world))
       (main cos float_of_str str_of_float world id secret args).
Proof.
  assert (Hrange : forall start_date end_date,
     time_range world = Ok (start_date, end_date) ->
     exists start,
       Datetime.minus_days (utc_now world) 7 = Ok start
       /\ Datetime.instant (utc_now world) - Datetime.instant start
          = Datetime.week_us
       /\ start_date = Datetime.isoformat start
       /\ end_date = Datetime.isoformat (utc_now world)
       /\ has_utc_offset start_date /\ has_utc_offset end_date
       /\ (Datetime.valid (utc_now world) ->
           Datetime.iso8601_utc start_date /\ Datetime.iso8601_utc end_date)).
  { intros start_date end_date H. unfold time_range in H.
    destruct (Datetime.minus_days (utc_now world) 7) as [start|] eqn:E;
      [|discriminate].
    injection H as <- <-. exists start.
    split; [reflexivity|]. split; [now rewrite (minus_days_instant _ _ _ E)|].
    split; [reflexivity|]. split; [reflexivity|].
    split; [apply isoformat_has_utc_offset|].
    split; [apply isoformat_has_utc_offset|].
    intros V. split; apply isoformat_iso8601; [|exact V].
    exact (minus_days_valid _ _ _ V E). }
  split; [exact Hrange|].
  eapply emits_weaken; [|apply main_events].
  intros [] He; simpl; auto.
  destruct He as (_ & _ & (bbox & w & h & s & e & _ & _ & Ht & ->)).
  destruct (Hrange _ _ Ht) as (start & E1 & E2 & -> & -> & _ & _ & V).
  exists start. simpl. auto.
Qed.

End ScriptFacts.

(** ** The stages on concrete runs *)

(** A run with a blank client id: two lines of guidance, no network
    call, no file. *)
Lemma blank_credentials_witness :
  ("" = "" \/ "secret" = "")
  /\ exists st',
       Sample.run "" "secret" default_args 200 "JPEG" = (Exited, st')
       /\ added Sample.initial st' [Printed guidance_1; Printed guidance_2]
       /\ List.filter network_call (trace st') = []
       /\ disk st' = ∅.
Proof.
  split; [now left|].
  apply (blank_credentials_stop_before_network Sample.cos Sample.float_of_str
           Sample.str_of_float (Sample.world 200 "JPEG") "" "secret"
           default_args Sample.initial).
  now left.
Defined.

(** The repository's own credentials are blank: as shipped, every run
    stops at line 16. *)
Lemma shipped_credentials_always_exit cos float_of_str str_of_float world args st :
  fst (main cos float_of_str str_of_float world client_id client_secret args st)
  = Exited.
Proof. reflexivity. Qed.

(** The path [missing.js] cannot be read: the file is opened, the
    warning printed, the built-in script kept. *)
Lemma unreadable_evalscript_witness :
  let args := with_evalscript "missing.js" default_args in
  (1 < PyStr.len (evalscript args))%nat
  /\ read_text (Sample.world 200 "JPEG") (evalscript args) = None
  /\ load_evalscript (Sample.world 200 "JPEG") "missing.js" EVALSCRIPT Sample.initial
     = (Done EVALSCRIPT,
        mkState [OpenedForRead "missing.js";
                 Printed "Cannot read evalscript missing.js. Using default"] ∅).
Proof.
  intros args.
  assert (L : (1 < PyStr.len (evalscript args))%nat) by (vm_compute; lia).
  split; [exact L|]. split; [reflexivity|].
  exact (proj1 (proj1 (unreadable_evalscript_falls_back Sample.cos
                         Sample.float_of_str Sample.str_of_float
                         (Sample.world 200 "JPEG") "id" "secret" args
                         Sample.initial L) eq_refl)).
Defined.

(** C5. The code at a path the claim covers and line 63 leaves out:
    with [-E x] the path is given and its file cannot be read, and
    lines 63-68 neither open it nor print the warning; they keep the
    built-in script, and the whole run prints no warning either. *)
Lemma one_character_unreadable_path_prints_no_warning :
  let world := Sample.world 200 "JPEG" in
  let args := with_evalscript "x" default_args in
  evalscript args <> ""
  /\ read_text world (evalscript args) = None
  /\ load_evalscript world (evalscript args) EVALSCRIPT Sample.initial
     = (Done EVALSCRIPT, Sample.initial)
  /\ ~ In (Printed (warning "x")) (trace (snd (Sample.run "id" "secret" args 200 "JPEG"))).
Proof.
  intros world args. split; [discriminate|]. split; [reflexivity|].
  split; [reflexivity|].
  vm_compute. intros H. repeat (destruct H as [H|H]; [discriminate H|]). exact H.
Qed.

(** With [-E x] and a readable file [x], the run is the run without
    [-E]: the file is not opened and the built-in script is kept.  The
    same holds for the path [é], one character of two bytes. *)
Lemma one_character_path_witness :
  let world := Sample.with_file "x" "custom" (Sample.world 200 "JPEG") in
  let args := with_evalscript "x" default_args in
  let world' := Sample.with_file "é" "custom" (Sample.world 200 "JPEG") in
  let args' := with_evalscript "é" default_args in
  (PyStr.len (evalscript args) = 1%nat
   /\ read_text world "x" = Some "custom"
   /\ load_evalscript world "x" EVALSCRIPT Sample.initial
      = (Done EVALSCRIPT, Sample.initial)
   /\ main Sample.cos Sample.float_of_str Sample.str_of_float world
        "id" "secret" args
      = main Sample.cos Sample.float_of_str Sample.str_of_float world
          "id" "secret" default_args)
  /\ (PyStr.len (evalscript args') = 1%nat
      /\ String.length (evalscript args') = 2%nat
      /\ read_text world' "é" = Some "custom"
      /\ load_evalscript world' "é" EVALSCRIPT Sample.initial
         = (Done EVALSCRIPT, Sample.initial)
      /\ main Sample.cos Sample.float_of_str Sample.str_of_float world'
           "id" "secret" args'
         = main Sample.cos Sample.float_of_str Sample.str_of_float world'
             "id" "secret" default_args).
Proof.
  intros world args world' args'.
  destruct (one_character_path_is_ignored Sample.cos Sample.float_of_str
              Sample.str_of_float world "id" "secret" args eq_refl)
    as (L & _ & M & _).
  destruct (one_character_path_is_ignored Sample.cos Sample.float_of_str
              Sample.str_of_float world' "id" "secret" args' eq_refl)
    as (L' & _ & M' & _).
  split.
  - split; [reflexivity|]. split; [reflexivity|].
    split; [exact (L Sample.initial) | exact M].
  - split; [reflexivity|]. split; [reflexivity|]. split; [reflexivity|].
    split; [exact (L' Sample.initial) | exact M'].
Defined.

(** A 200 response replaces the old bytes of [image1.jpg]; a 403
    response leaves them and prints the report. *)
Lemma response_status_witness :
  let world := Sample.world 200 "JPEG" in
  let ok := mkResponse 200 "JPEG" "JPEG" in
  let denied := mkResponse 403 "" "denied" in
  let st := mkState [] {["image1.jpg" := "old bytes"]} in
  (status_code ok = 200 /\ writable world "image1.jpg" = true
   /\ exists st', handle_response world "image1.jpg" ok st = (Done tt, st')
                  /\ disk st' !! "image1.jpg" = Some "JPEG"
                  /\ disk st' = <["image1.jpg" := "JPEG"]> (disk st))
  /\ (status_code denied <> 200
      /\ exists st', handle_response world "image1.jpg" denied st = (Done tt, st')
                     /\ disk st' = disk st
                     /\ added st st' [Printed (error_report denied)]).
Proof.
  intros world ok denied st.
  pose proof (response_status_decides_output Sample.cos Sample.float_of_str
                Sample.str_of_float world "id" "secret" default_args
                "image1.jpg" ok st) as [Hok _].
  pose proof (response_status_decides_output Sample.cos Sample.float_of_str
                Sample.str_of_float world "id" "secret" default_args
                "image1.jpg" denied st) as [_ [Herr _]].
  split.
  - split; [reflexivity|]. split; [reflexivity|]. exact (Hok eq_refl eq_refl).
  - assert (N : status_code denied <> 200) by discriminate.
    split; [exact N|]. exact (Herr N).
Defined.

(** The time range at 2026-11-04T20:19:05.000123 UTC. *)
Lemma time_range_witness :
  time_range (Sample.world 200 "JPEG")
  = Ok ("2026-10-28T20:19:05.000123+00:00", "2026-11-04T20:19:05.000123+00:00")
  /\ Datetime.valid (utc_now (Sample.world 200 "JPEG"))
  /\ exists start,
       Datetime.minus_days (Datetime.mkDatetime 739924 20 19 5 123) 7 = Ok start
       /\ Datetime.instant (Datetime.mkDatetime 739924 20 19 5 123)
          - Datetime.instant start = Datetime.week_us
       /\ "2026-10-28T20:19:05.000123+00:00" = Datetime.isoformat start
       /\ "2026-11-04T20:19:05.000123+00:00"
          = Datetime.isoformat (Datetime.mkDatetime 739924 20 19 5 123)
       /\ has_utc_offset "2026-10-28T20:19:05.000123+00:00"
       /\ has_utc_offset "2026-11-04T20:19:05.000123+00:00"
       /\ (Datetime.valid (Datetime.mkDatetime 739924 20 19 5 123) ->
           Datetime.iso8601_utc "2026-10-28T20:19:05.000123+00:00"
           /\ Datetime.iso8601_utc "2026-11-04T20:19:05.000123+00:00").
Proof.
  assert (E : time_range (Sample.world 200 "JPEG")
              = Ok ("2026-10-28T20:19:05.000123+00:00",
                    "2026-11-04T20:19:05.000123+00:00")) by (vm_compute; reflexivity).
  split; [exact E|].
  split; [unfold Datetime.valid, Datetime.MAXORDINAL; simpl; lia|].
  exact (proj1 (time_range_spans_last_seven_days Sample.cos Sample.float_of_str
                  Sample.str_of_float (Sample.world 200 "JPEG") "id" "secret"
                  default_args) _ _ E).
Defined.

(** ** Signs of binary64 results *)

Lemma binary_round_aux_signed s m e l :
  sf_signed s (binary_round_aux prec emax s m e l).
Proof.
  unfold binary_round_aux.
  destruct (shr_fexp prec emax m e l) as [mrs' e'].
  destruct (shr_fexp prec emax _ e' loc_Exact) as [mrs'' e''].
  destruct (shr_m mrs''); simpl; [reflexivity | | exact I].
  destruct (e'' <=? emax - prec); reflexivity.
Qed.

Lemma binary_round_signed s m e : sf_signed s (binary_round prec emax s m e).
Proof.
  unfold binary_round. destruct (shl_align _ _ _) as [mz ez].
  apply binary_round_aux_signed.
Qed.

Lemma SFmul_signed a b x y :
  sf_signed a x -> sf_signed b y ->
  sf_signed (xorb a b) (SFmul prec emax x y).
Proof.
  destruct x, y; simpl; intros; subst; try exact I; try reflexivity.
  apply binary_round_aux_signed.
Qed.

Lemma SFdiv_signed a b x y :
  sf_signed a x -> sf_signed b y ->
  sf_signed (xorb a b) (SFdiv prec emax x y).
Proof.
  destruct x, y; simpl; intros; subst; try exact I; try reflexivity.
  destruct (SFdiv_core_binary _ _ _ _ _ _) as [[mz ez] lz].
  apply binary_round_aux_signed.
Qed.

Lemma mul_signed a b x y :
  signed a x -> signed b y -> signed (xorb a b) (x * y)%float.
Proof. unfold signed. rewrite mul_spec. apply SFmul_signed. Qed.

Lemma div_signed a b x y :
  signed a x -> signed b y -> signed (xorb a b) (x / y)%float.
Proof. unfold signed. rewrite div_spec. apply SFdiv_signed. Qed.

Lemma int_of_float_sign b x z :
  signed b x -> Py.int_of_float x = Ok z -> if b then z <= 0 else 0 <= z.
Proof.
  unfold signed, Py.int_of_float.
  assert (T : forall m e, 0 <= Py.trunc_mantissa m e).
  { intros m [|k|k]; simpl; [lia| |].
    - apply Z.shiftl_nonneg. lia.
    - apply Z.shiftr_nonneg. lia. }
  destruct (Prim2SF x) as [s|s| |s m e]; simpl; intros Hs [= <-];
    try (destruct b; lia).
  subst s. specialize (T m e). destruct b; lia.
Qed.

(** ** The sign of a difference of ordered floats *)

Lemma digits2_pos_bounds m :
  2 ^ (Zpos (digits2_pos m) - 1) <= Zpos m < 2 ^ Zpos (digits2_pos m).
Proof.
  induction m as [m IH|m IH|]; simpl digits2_pos.
  - rewrite Pos2Z.inj_succ.
    replace (Z.succ (Zpos (digits2_pos m)) - 1) with (Z.succ (Zpos (digits2_pos m) - 1)) by lia.
    rewrite !Z.pow_succ_r by lia. lia.
  - rewrite Pos2Z.inj_succ.
    replace (Z.succ (Zpos (digits2_pos m)) - 1) with (Z.succ (Zpos (digits2_pos m) - 1)) by lia.
    rewrite !Z.pow_succ_r by lia. lia.
  - simpl. lia.
Qed.

Lemma iter_xO_value m d : Zpos (Pos.iter xO m d) = Zpos m * 2 ^ Zpos d.
Proof.
  induction d as [|d IH] using Pos.peano_ind.
  - simpl. lia.
  - rewrite Pos.iter_succ, Pos2Z.inj_succ, Z.pow_succ_r by lia.
    rewrite Pos2Z.inj_xO, IH. lia.
Qed.

Lemma shl_align_value m e ez :
  ez <= e -> Zpos (fst (shl_align m e ez)) = Zpos m * 2 ^ (e - ez).
Proof.
  intros H. unfold shl_align. destruct (ez - e) as [|p|d] eqn:D.
  - replace (e - ez) with 0 by lia. simpl. lia.
  - lia.
  - simpl. rewrite iter_xO_value. f_equal. f_equal. lia.
Qed.

Lemma bounded_exponent m e :
  bounded prec emax m e = true ->
  - 1074 <= e /\ Zpos (digits2_pos m) <= 53
  /\ (- 1074 < e -> Zpos (digits2_pos m) = 53).
Proof.
  unfold bounded, canonical_mantissa, fexp, SpecFloat.emin, prec, emax.
  intros H. apply andb_prop in H as [H _]. apply Z.eqb_eq in H. lia.
Qed.

(** With a smaller exponent, or the same exponent and a smaller
    mantissa, a valid float has the smaller aligned mantissa. *)
Lemma aligned_lt m1 e1 m2 e2 ez :
  bounded prec emax m1 e1 = true -> bounded prec emax m2 e2 = true ->
  ez = Z.min e1 e2 ->
  e1 < e2 \/ (e1 = e2 /\ (m1 < m2)%positive) ->
  Zpos (fst (shl_align m1 e1 ez)) < Zpos (fst (shl_align m2 e2 ez)).
Proof.
  intros B1 B2 -> H.
  rewrite !shl_align_value by lia.
  destruct H as [H|[-> H]].
  - rewrite Z.min_l by lia. replace (e1 - e1) with 0 by lia.
    destruct (bounded_exponent _ _ B1) as (E1 & D1 & _).
    destruct (bounded_exponent _ _ B2) as (_ & _ & D2).
    specialize (D2 ltac:(lia)).
    pose proof (digits2_pos_bounds m1) as [_ U1].
    pose proof (digits2_pos_bounds m2) as [L2 _].
    rewrite D2 in L2.
    assert (P1 : 2 ^ Zpos (digits2_pos m1) <= 2 ^ 53)
      by (apply Z.pow_le_mono_r; lia).
    assert (P2 : 2 ^ 1 <= 2 ^ (e2 - e1)) by (apply Z.pow_le_mono_r; lia).
    change (2 ^ (53 - 1)) with 4503599627370496 in L2.
    change (2 ^ 53) with 9007199254740992 in P1.
    change (2 ^ 1) with 2 in P2. nia.
  - rewrite Z.min_id. replace (e2 - e2) with 0 by lia. simpl. lia.
Qed.

Lemma binary_normalize_signed z e b :
  z <> 0 -> (z <? 0) = b ->
  sf_signed b (binary_normalize prec emax z e false).
Proof.
  intros H <-. destruct z; simpl; [congruence| |]; apply binary_round_signed.
Qed.

Lemma SFsub_signed_of_lt x y :
  valid_binary x = true -> valid_binary y = true ->
  SFltb x y = true ->
  sf_signed false (SFsub prec emax y x) /\ sf_signed true (SFsub prec emax x y).
Proof.
  unfold SFltb.
  destruct x as [sx|sx| |sx mx ex], y as [sy|sy| |sy my ey]; simpl;
    intros Vx Vy H; try discriminate;
    try (destruct sx; try discriminate); try (destruct sy; try discriminate);
    try (split; (reflexivity || exact I)).
  - (* x < y < 0: the magnitude of x is the larger *)
    assert (L : Zpos (fst (shl_align my ey (Z.min ey ex)))
                < Zpos (fst (shl_align mx ex (Z.min ey ex)))).
    { apply aligned_lt; auto.
      destruct (Z.compare_spec ex ey) as [E|E|E]; try discriminate; [|lia].
      right. split; [lia|].
      destruct (Pos.compare_cont Eq mx my) eqn:C; try discriminate.
      change (Pos.compare mx my = Gt) in C. apply Pos.compare_gt_iff in C. lia. }
    split; [|rewrite Z.min_comm in L];
      apply binary_normalize_signed; unfold cond_Zopp; lia.
  - (* x < 0 < y *)
    split; apply binary_normalize_signed; unfold cond_Zopp;
      repeat match goal with
             | |- context [Zpos ?t] =>
                 pose proof (Pos2Z.is_pos t); generalize dependent (Zpos t); intros
             end; lia.
  - (* 0 < x < y *)
    assert (L : Zpos (fst (shl_align mx ex (Z.min ex ey)))
                < Zpos (fst (shl_align my ey (Z.min ex ey)))).
    { apply aligned_lt; auto.
      destruct (Z.compare_spec ex ey) as [E|E|E]; try discriminate; [|lia].
      right. split; [lia|].
      destruct (Pos.compare_cont Eq mx my) eqn:C; try discriminate.
      exact C. }
    split; [rewrite Z.min_comm in L|];
      apply binary_normalize_signed; unfold cond_Zopp; lia.
Qed.

Lemma sub_signed_of_lt x y :
  (x <? y)%float = true ->
  signed false (y - x)%float /\ signed true (x - y)%float.
Proof.
  rewrite ltb_spec. unfold signed. rewrite !sub_spec.
  apply SFsub_signed_of_lt; apply Prim2SF_valid.
Qed.

(** ** The sign of [float(n)] *)

Lemma SF2Prim_finite_signed m e :
  signed false (SF2Prim (S754_finite false m e)).
Proof.
  unfold signed, SF2Prim. rewrite Z_ldexp_spec, of_uint63_spec.
  assert (S : sf_signed false
                (binary_normalize prec emax
                   (Uint63.to_Z (Uint63.of_Z (Zpos m))) 0 false)).
  { destruct (Uint63.to_Z (Uint63.of_Z (Zpos m))) as [|p|p] eqn:E; simpl.
    - reflexivity.
    - apply binary_round_signed.
    - pose proof (Uint63.to_Z_bounded (Uint63.of_Z (Zpos m))). lia. }
  destruct (binary_normalize prec emax _ 0 false); simpl in *; auto.
  subst. apply binary_round_signed.
Qed.

Lemma float_of_int_signed n x :
  0 < n -> Py.float_of_int n = Ok x -> signed false x.
Proof.
  intros Hn. unfold Py.float_of_int.
  destruct n as [|p|p]; try lia. simpl binary_normalize.
  pose proof (binary_round_signed false p 0) as S.
  destruct (binary_round prec emax false p 0) as [s|s| |s m e]; simpl in S;
    intros [= <-]; subst.
  - reflexivity.
  - exact I.
  - apply SF2Prim_finite_signed.
Qed.

(** ** The geometry (lines 84-99) *)

Lemma aspect_ratio_eq cos b0 b1 b2 b3 :
  aspect_ratio cos [b0; b1; b2; b3]
  = (c ← Py.math_cos cos (Py.radians ((b1 + b3) / 2));
     Py.truediv ((b2 - b0) * 111 * c) ((b3 - b1) * 111))%float.
Proof. reflexivity. Qed.

Lemma math_cos_at cos x c :
  cos x = c -> is_nan c = false -> is_infinity c = false ->
  Py.math_cos cos x = Ok c.
Proof.
  intros H N I. unfold Py.math_cos. rewrite H, N, I. reflexivity.
Qed.

Lemma math_cos_ok cos x c : Py.math_cos cos x = Ok c -> c = cos x.
Proof.
  unfold Py.math_cos. destruct (_ && _); [discriminate|].
  destruct (_ && _); [discriminate|]. congruence.
Qed.

Lemma truediv_ok x y q :
  Py.truediv x y = Ok q -> (y =? 0)%float = false /\ q = (x / y)%float.
Proof.
  unfold Py.truediv. destruct (y =? 0)%float; [discriminate|].
  intros [= <-]. auto.
Qed.

Example aspect_ratio_at_equator cos :
  cos 0%float = 1%float ->
  aspect_ratio cos [0; -2; 3; 2]%float = Ok 0.75%float.
Proof.
  intros H. rewrite aspect_ratio_eq.
  change (Py.radians ((-2 + 2) / 2)) with 0%float.
  rewrite (math_cos_at cos 0 1 H) by reflexivity.
  reflexivity.
Qed.

Lemma trunc_mantissa_nonneg m e : 0 <= Py.trunc_mantissa m e.
Proof.
  destruct e as [|k|k]; simpl; [lia| |].
  - apply Z.shiftl_nonneg. lia.
  - apply Z.shiftr_nonneg. lia.
Qed.

(** [int(x)] is the integer part of [x], towards zero. *)
Lemma int_of_float_truncation x z :
  Py.int_of_float x = Ok z -> truncation_of x z.
Proof.
  unfold Py.int_of_float, truncation_of.
  destruct (Prim2SF x) as [s|s| |s m e]; try discriminate.
  - now intros [= <-].
  - intros [= <-]. pose proof (trunc_mantissa_nonneg m e) as T.
    assert (A : Z.abs (if s then - Py.trunc_mantissa m e
                       else Py.trunc_mantissa m e) = Py.trunc_mantissa m e)
      by (destruct s; lia).
    rewrite A. split; [destruct s; reflexivity|]. split; intros He.
    + destruct e as [|k|k]; try lia; simpl.
      * lia.
      * now rewrite Z.shiftl_mul_pow2 by lia.
    + destruct e as [|k|k]; try lia. simpl Py.trunc_mantissa.
      rewrite Z.shiftr_div_pow2 by lia.
      change (- Z.neg k) with (Z.pos k).
      assert (P : 0 < 2 ^ Z.pos k) by (apply Z.pow_pos_nonneg; lia).
      pose proof (Z.mul_div_le (Z.pos m) _ P).
      pose proof (Z.mul_succ_div_gt (Z.pos m) _ P). lia.
Qed.

Lemma dimensions_cases H ratio w h :
  dimensions H ratio = Ok (w, h) ->
  exists w0,
    initial_width H ratio = Ok w0
    /\ ((w0 <= MAX_WIDTH /\ w = w0 /\ h = H)
        \/ (MAX_WIDTH < w0 /\ w = MAX_WIDTH
            /\ clamped_height MAX_WIDTH ratio = Ok h)).
Proof.
  unfold dimensions. destruct (initial_width H ratio) as [w0|e]; [|discriminate].
  simpl. destruct (Z.gtb_spec w0 MAX_WIDTH) as [G|G].
  - destruct (clamped_height MAX_WIDTH ratio) as [h'|e]; [|discriminate].
    simpl. intros [= <- <-]. exists w0. split; [reflexivity|]. right. auto.
  - intros [= <- <-]. exists w0. split; [reflexivity|]. left. auto.
Qed.

Lemma dimensions_unclamped H ratio w0 :
  initial_width H ratio = Ok w0 -> w0 <= MAX_WIDTH ->
  dimensions H ratio = Ok (w0, H).
Proof.
  intros E L. unfold dimensions. rewrite E. simpl.
  destruct (Z.gtb_spec w0 MAX_WIDTH); [lia | reflexivity].
Qed.

Lemma dimensions_clamped H ratio w0 :
  initial_width H ratio = Ok w0 -> MAX_WIDTH < w0 ->
  dimensions H ratio
  = (h ← clamped_height MAX_WIDTH ratio; Ok (MAX_WIDTH, h)).
Proof.
  intros E L. unfold dimensions. rewrite E. simpl.
  destruct (Z.gtb_spec w0 MAX_WIDTH); [reflexivity | lia].
Qed.

Lemma clamped_height_eq ratio :
  clamped_height MAX_WIDTH ratio
  = (q ← Py.truediv 2500 ratio; Py.int_of_float q).
Proof. reflexivity. Qed.

(** A float that compares equal to zero is a zero. *)
Lemma eqb_zero_inv x : (x =? 0)%float = true -> exists s, Prim2SF x = S754_zero s.
Proof.
  rewrite FloatAxioms.eqb_spec. change (Prim2SF 0) with (S754_zero false).
  unfold SFeqb. destruct (Prim2SF x) as [s|s| |s m e]; simpl; try discriminate.
  - eauto.
  - destruct s; discriminate.
  - destruct s; discriminate.
Qed.

(** A width above zero rules out a zero aspect ratio. *)
Lemma initial_width_nonzero_ratio H ratio w0 :
  initial_width H ratio = Ok w0 -> w0 <> 0 -> (ratio =? 0)%float = false.
Proof.
  unfold initial_width. destruct (Py.float_of_int H) as [h|e]; [|discriminate].
  simpl. intros E Hw. destruct (ratio =? 0)%float eqn:Z0; [|reflexivity].
  exfalso. apply eqb_zero_inv in Z0 as [s Z0].
  unfold Py.int_of_float in E. rewrite mul_spec, Z0 in E.
  destruct (Prim2SF h); simpl in E; congruence.
Qed.

Lemma aspect_ratio_signed cos lng0 lat0 lng1 lat1 slng slat sc ratio :
  aspect_ratio cos [lng0; lat0; lng1; lat1] = Ok ratio ->
  signed slng (lng1 - lng0)%float -> signed slat (lat1 - lat0)%float ->
  signed sc (cos (Py.radians ((lat0 + lat1) / 2))) ->
  signed (xorb (xorb slng sc) slat) ratio.
Proof.
  rewrite aspect_ratio_eq. intros E Slng Slat Sc.
  destruct (Py.math_cos cos _) as [c|e] eqn:C; [|discriminate].
  apply math_cos_ok in C. subst c. simpl in E.
  apply truediv_ok in E as [_ ->].
  assert (S111 : signed false 111) by reflexivity.
  apply div_signed.
  - apply mul_signed; [|exact Sc].
    rewrite <- (xorb_false_r slng). now apply mul_signed.
  - rewrite <- (xorb_false_r slat). now apply mul_signed.
Qed.

(** C1, amended. For every bounding box with [lat1 > lat0] and
    [lng1 > lng0] and every height above zero, when the cosine of the
    mean latitude is not negative and the calculation returns, the width
    and the height it returns are integers that are not negative, the
    width is at most 2500, and the height is the given one unless the
    width was clamped to 2500.  (The width need not be positive.) *)
Theorem dimensions_are_bounded cos lng0 lat0 lng1 lat1 H w h :
  (lat0 <? lat1)%float = true -> (lng0 <? lng1)%float = true -> 0 < H ->
  signed false (cos (Py.radians ((lat0 + lat1) / 2))) ->
  geometry cos [lng0; lat0; lng1; lat1] H = Ok (w, h) ->
  0 <= w <= MAX_WIDTH /\ 0 <= h /\ (h = H \/ w = MAX_WIDTH).
Proof.
  intros Hlat Hlng HH Hcos E. unfold geometry in E.
  destruct (aspect_ratio cos _) as [ratio|e] eqn:R; [|discriminate].
  simpl in E.
  assert (Sr : signed false ratio).
  { apply (aspect_ratio_signed _ _ _ _ _ false false false _ R); auto.
    - apply (sub_signed_of_lt _ _ Hlng).
    - apply (sub_signed_of_lt _ _ Hlat). }
  destruct (dimensions_cases _ _ _ _ E) as (w0 & W0 & Hcase).
  assert (P0 : 0 <= w0).
  { unfold initial_width in W0.
    destruct (Py.float_of_int H) as [hf|e] eqn:F; [|discriminate].
    simpl in W0. apply (int_of_float_sign false _ _) in W0; [exact W0|].
    apply (mul_signed false false); [|exact Sr].
    now apply (float_of_int_signed H). }
  destruct Hcase as [(L & -> & ->)|(L & -> & C)].
  - repeat split; auto; lia.
  - rewrite clamped_height_eq in C.
    destruct (Py.truediv 2500 ratio) as [q|e] eqn:Q; [|discriminate].
    simpl in C. apply truediv_ok in Q as [_ ->].
    apply (int_of_float_sign false _ _) in C.
    + unfold MAX_WIDTH. repeat split; auto; lia.
    + apply (div_signed false false); [reflexivity | exact Sr].
Qed.

(** C2, amended. The ratio is
    [(longitude span * 111 * cos(radians(mean latitude)))
     / (latitude span * 111)], and the width before clamping is
    [int(height * ratio)]: the integer part of the float product,
    towards zero, not the nearest integer. *)
Theorem width_is_truncated_product cos lng0 lat0 lng1 lat1 H ratio w0 :
  aspect_ratio cos [lng0; lat0; lng1; lat1] = Ok ratio ->
  initial_width H ratio = Ok w0 ->
  ratio = ((lng1 - lng0) * 111 * cos (Py.radians ((lat0 + lat1) / 2))
           / ((lat1 - lat0) * 111))%float
  /\ (exists h, Py.float_of_int H = Ok h /\ truncation_of (h * ratio) w0)
  /\ (w0 <= MAX_WIDTH -> geometry cos [lng0; lat0; lng1; lat1] H = Ok (w0, H)).
Proof.
  intros R W. split; [|split].
  - rewrite aspect_ratio_eq in R.
    destruct (Py.math_cos cos _) as [c|e] eqn:C; [|discriminate].
    apply math_cos_ok in C. subst c. simpl in R.
    now apply truediv_ok in R as [_ ->].
  - unfold initial_width in W.
    destruct (Py.float_of_int H) as [h|e]; [|discriminate].
    exists h. split; [reflexivity|]. now apply int_of_float_truncation.
  - intros L. unfold geometry. rewrite R. simpl.
    now apply dimensions_unclamped.
Qed.

(** C3, amended. For every input whose width before clamping exceeds
    2500, the final width is exactly 2500 and the final height is
    [int(2500 / ratio)] for the same ratio, which the division finds
    not to be zero: the integer part of that quotient towards zero and
    not the nearest integer, so that a returned height [h] has the sign
    of the quotient and [|h| <= |2500 / ratio| < |h| + 1].  The given
    height is replaced in this branch only. *)
Theorem clamp_recomputes_height H ratio w0 :
  initial_width H ratio = Ok w0 ->
  (MAX_WIDTH < w0 ->
     (ratio =? 0)%float = false
     /\ dimensions H ratio
        = (h ← Py.int_of_float (2500 / ratio)%float; Ok (MAX_WIDTH, h))
     /\ forall w h, dimensions H ratio = Ok (w, h) ->
          w = MAX_WIDTH /\ truncation_of (2500 / ratio)%float h)
  /\ (w0 <= MAX_WIDTH -> dimensions H ratio = Ok (w0, H)).
Proof.
  intros W. split.
  - intros L.
    assert (Z0 : (ratio =? 0)%float = false).
    { apply (initial_width_nonzero_ratio H ratio w0 W). unfold MAX_WIDTH in L. lia. }
    assert (D : dimensions H ratio
                = (h ← Py.int_of_float (2500 / ratio)%float; Ok (MAX_WIDTH, h))).
    { rewrite (dimensions_clamped H ratio w0 W L), clamped_height_eq.
      unfold Py.truediv. rewrite Z0. reflexivity. }
    split; [exact Z0|]. split; [exact D|].
    intros w h E. rewrite D in E.
    destruct (Py.int_of_float (2500 / ratio)%float) as [h'|e] eqn:I;
      [|discriminate].
    simpl in E. injection E as <- <-. split; [reflexivity|].
    now apply int_of_float_truncation.
  - now apply dimensions_unclamped.
Qed.

(** At the default box and height 512, a cosine within one unit in the
    last place gives the width 1024, for the script and for the
    specification's rounding alike. *)
Lemma default_geometry cos :
  within_one_ulp default_cos_value (cos default_cos_argument) ->
  geometry cos default_box 512 = Ok (1024, 512)
  /\ (ratio ← aspect_ratio cos default_box; spec_width 512 ratio) = Ok 1024.
Proof.
  intros Hc. unfold geometry, default_box. rewrite aspect_ratio_eq.
  change (Py.radians _) with default_cos_argument.
  destruct Hc as [Hc|[Hc|[Hc|[]]]]; symmetry in Hc;
    rewrite (math_cos_at cos _ _ Hc) by reflexivity;
    split; vm_compute; reflexivity.
Qed.

(** C7. For the box (15.0617, 50.2856, 15.2252, 50.3378) and height 512
    the width is reproducible: any two runs of the geometry calculation,
    each with a cosine within one unit in the last place of the exact
    one, return the same width, and it is the golden value 1024 that the
    stated formula gives. *)
Theorem default_box_width_is_reproducible cos1 cos2 :
  within_one_ulp default_cos_value (cos1 default_cos_argument) ->
  within_one_ulp default_cos_value (cos2 default_cos_argument) ->
  geometry cos1 default_box 512 = geometry cos2 default_box 512
  /\ geometry cos1 default_box 512 = Ok (1024, 512)
  /\ (ratio ← aspect_ratio cos1 default_box; spec_width 512 ratio) = Ok 1024.
Proof.
  intros H1 H2.
  destruct (default_geometry cos1 H1) as [G1 S1].
  destruct (default_geometry cos2 H2) as [G2 _].
  split; [congruence|]. split; assumption.
Qed.

(** ** A box without height *)

Lemma not_infinity_inv x s :
  is_infinity x = false -> Prim2SF x <> S754_infinity s.
Proof.
  unfold is_infinity. rewrite FloatAxioms.eqb_spec, abs_spec.
  change (Prim2SF infinity) with (S754_infinity false).
  intros H E. rewrite E in H. discriminate.
Qed.

Lemma SFsub_equal_is_zero x y :
  SFeqb x y = true -> (forall s, x <> S754_infinity s) ->
  exists s, SFsub prec emax y x = S754_zero s.
Proof.
  unfold SFeqb.
  destruct x as [sx|sx| |sx mx ex], y as [sy|sy| |sy my ey]; simpl;
    intros H N; try discriminate; try (now destruct (N sx)).
  - destruct sx, sy; eauto.
  - destruct sy; discriminate.
  - destruct sy; discriminate.
  - destruct sx; discriminate.
  - destruct sy; discriminate.
  - assert (E : sx = sy /\ ex = ey /\ mx = my).
    { destruct sx, sy; try discriminate;
        destruct (Z.compare_spec ex ey); try discriminate;
        destruct (Pos.compare_cont Eq mx my) eqn:C; try discriminate;
        apply Pos.compare_eq in C; auto. }
    destruct E as (-> & -> & ->). rewrite Z.sub_diag. simpl. eauto.
Qed.

(** Equal finite latitudes make the north-south distance a zero. *)
Lemma degenerate_lat_distance lat0 lat1 :
  (lat0 =? lat1)%float = true -> is_infinity lat0 = false ->
  ((lat1 - lat0) * 111 =? 0)%float = true.
Proof.
  intros E I. rewrite FloatAxioms.eqb_spec in *. rewrite mul_spec, sub_spec.
  unfold SF64sub.
  destruct (SFsub_equal_is_zero _ _ E) as [s ->].
  - intros s. now apply not_infinity_inv.
  - now destruct s.
Qed.

(** C9, amended. The aspect-ratio computation checks nothing about the
    box.  Whenever it returns, the sign of the ratio is the product of
    the signs of the longitude span, of the cosine and of the latitude
    span, NaN aside: with a cosine that is not negative, a box reversed
    on exactly one axis gives a ratio that is not positive, and a box
    reversed on both axes one that is not negative.  A box without
    height, two equal finite latitudes, gives no ratio at all, and no
    dimensions: an exception ends the calculation and nothing catches
    it.  Where [math.cos] returned, that is the ZeroDivisionError of the
    division; where [math.cos] itself raised, as it does for latitudes
    whose sum overflows, it is the exception of [math.cos], before the
    division is reached. *)
Theorem aspect_ratio_is_not_validated cos lng0 lat0 lng1 lat1 :
  (forall reversed_lng reversed_lat negative_cos ratio,
     ordered reversed_lng lng0 lng1 -> ordered reversed_lat lat0 lat1 ->
     signed negative_cos (cos (Py.radians ((lat0 + lat1) / 2))) ->
     aspect_ratio cos [lng0; lat0; lng1; lat1] = Ok ratio ->
     signed (xorb (xorb reversed_lng negative_cos) reversed_lat) ratio)
  /\ ((lat0 =? lat1)%float = true -> is_infinity lat0 = false ->
      (forall ratio, aspect_ratio cos [lng0; lat0; lng1; lat1] <> Ok ratio)
      /\ (exists e, aspect_ratio cos [lng0; lat0; lng1; lat1] = Raise e
                    /\ forall H, geometry cos [lng0; lat0; lng1; lat1] H
                                 = Raise e)
      /\ (forall c, Py.math_cos cos (Py.radians ((lat0 + lat1) / 2)) = Ok c ->
          aspect_ratio cos [lng0; lat0; lng1; lat1] = Raise ZeroDivisionError
          /\ forall H, geometry cos [lng0; lat0; lng1; lat1] H
                       = Raise ZeroDivisionError)
      /\ (forall e, Py.math_cos cos (Py.radians ((lat0 + lat1) / 2)) = Raise e ->
          aspect_ratio cos [lng0; lat0; lng1; lat1] = Raise e
          /\ forall H, geometry cos [lng0; lat0; lng1; lat1] H = Raise e)).
Proof.
  split.
  - intros rlng rlat sc ratio Olng Olat Sc R.
    apply (aspect_ratio_signed _ _ _ _ _ _ _ _ _ R); [| |exact Sc].
    + destruct rlng; simpl in Olng; apply (sub_signed_of_lt _ _ Olng).
    + destruct rlat; simpl in Olat; apply (sub_signed_of_lt _ _ Olat).
  - intros E I. pose proof (degenerate_lat_distance _ _ E I) as Z0.
    assert (D : forall c,
               Py.math_cos cos (Py.radians ((lat0 + lat1) / 2)) = Ok c ->
               aspect_ratio cos [lng0; lat0; lng1; lat1]
               = Raise ZeroDivisionError).
    { intros c C. rewrite aspect_ratio_eq, C. simpl.
      unfold Py.truediv. now rewrite Z0. }
    assert (D' : forall e,
               Py.math_cos cos (Py.radians ((lat0 + lat1) / 2)) = Raise e ->
               aspect_ratio cos [lng0; lat0; lng1; lat1] = Raise e).
    { intros e C. now rewrite aspect_ratio_eq, C. }
    assert (G : forall e, aspect_ratio cos [lng0; lat0; lng1; lat1] = Raise e ->
                forall H, geometry cos [lng0; lat0; lng1; lat1] H = Raise e).
    { intros e R H. unfold geometry. now rewrite R. }
    split; [|split; [|split]].
    + intros ratio R.
      destruct (Py.math_cos cos (Py.radians ((lat0 + lat1) / 2))) as [c|e] eqn:C.
      * rewrite (D c eq_refl) in R. discriminate.
      * rewrite (D' e eq_refl) in R. discriminate.
    + destruct (Py.math_cos cos (Py.radians ((lat0 + lat1) / 2))) as [c|e] eqn:C.
      * exists ZeroDivisionError. split; [exact (D c eq_refl)|].
        exact (G _ (D c eq_refl)).
      * exists e. split; [exact (D' e eq_refl)|]. exact (G _ (D' e eq_refl)).
    + intros c C. split; [exact (D c C) | exact (G _ (D c C))].
    + intros e C. split; [exact (D' e C) | exact (G _ (D' e C))].
Qed.

(** ** The geometry on concrete boxes *)

Lemma geometry_at_equator cos b0 b1 b2 b3 H :
  cos 0%float = 1%float -> Py.radians ((b1 + b3) / 2) = 0%float ->
  geometry cos [b0; b1; b2; b3] H
  = (ratio ← Py.truediv ((b2 - b0) * 111 * 1) ((b3 - b1) * 111);
     dimensions H ratio)%float.
Proof.
  intros C R. unfold geometry. rewrite aspect_ratio_eq, R.
  now rewrite (math_cos_at cos 0 1 C) by reflexivity.
Qed.

(** C1 as stated fails.  The box (0, -1, 1, 1) has [lat1 > lat0] and
    [lng1 > lng0], its ratio is 0.5, and at height 1 the width is
    [int(0.5) = 0], which is not positive; the box (0, -2^-10, 8, 2^-10)
    has the ratio 4096, and at height 1 the clamped height is
    [int(2500 / 4096) = 0]. *)
Lemma valid_box_with_width_zero :
  ((-1 <? 1)%float = true /\ (0 <? 1)%float = true /\ 0 < 1
   /\ forall cos, cos 0%float = 1%float ->
        geometry cos [0; -1; 1; 1]%float 1 = Ok (0, 1))
  /\ ((-0x1p-10 <? 0x1p-10)%float = true /\ (0 <? 8)%float = true /\ 0 < 1
      /\ forall cos, cos 0%float = 1%float ->
           geometry cos [0; -0x1p-10; 8; 0x1p-10]%float 1 = Ok (2500, 0)).
Proof.
  repeat split; try lia; intros cos C;
    rewrite (geometry_at_equator _ _ _ _ _ _ C) by reflexivity;
    vm_compute; reflexivity.
Qed.

(** The default box at the default height: 1024 by 512. *)
Lemma dimensions_are_bounded_witness :
  (0x1.9248e8a71de6ap+5 <? 0x1.92b3d07c84b5ep+5)%float = true
  /\ (0x1.e1f972474538fp+3 <? 0x1.e734d6a161e4fp+3)%float = true
  /\ 0 < 512
  /\ geometry Sample.cos default_box 512 = Ok (1024, 512)
  /\ 0 <= 1024 <= MAX_WIDTH /\ 0 <= 512 /\ (512 = 512 \/ 1024 = MAX_WIDTH).
Proof.
  assert (G : geometry Sample.cos default_box 512 = Ok (1024, 512))
    by (vm_compute; reflexivity).
  split; [reflexivity|]. split; [reflexivity|]. split; [lia|].
  split; [exact G|].
  apply (dimensions_are_bounded Sample.cos
           0x1.e1f972474538fp+3 0x1.9248e8a71de6ap+5
           0x1.e734d6a161e4fp+3 0x1.92b3d07c84b5ep+5 512 1024 512);
    [reflexivity | reflexivity | lia | reflexivity | exact G].
Defined.

(** C2 as stated fails.  The box (0, -2, 3, 2) has the ratio 0.75; at
    height 1 the script's width is [int(0.75) = 0], where the nearest
    integer is 1. *)
Lemma width_is_not_the_nearest_integer :
  (forall cos, cos 0%float = 1%float ->
     aspect_ratio cos [0; -2; 3; 2]%float = Ok 0.75%float
     /\ geometry cos [0; -2; 3; 2]%float 1 = Ok (0, 1))
  /\ initial_width 1 0.75 = Ok 0
  /\ spec_width 1 0.75 = Ok 1.
Proof.
  split; [|split; vm_compute; reflexivity].
  intros cos C. split.
  - now apply aspect_ratio_at_equator.
  - rewrite (geometry_at_equator _ _ _ _ _ _ C) by reflexivity.
    vm_compute. reflexivity.
Qed.

(** The default box: ratio 2.0002461270353025, width
    [int(1024.126...) = 1024]. *)
Lemma width_is_truncated_product_witness :
  aspect_ratio Sample.cos default_box = Ok 0x1.000810a9c89cdp+1%float
  /\ initial_width 512 0x1.000810a9c89cdp+1 = Ok 1024
  /\ (exists h, Py.float_of_int 512 = Ok h
                /\ truncation_of (h * 0x1.000810a9c89cdp+1) 1024)
  /\ geometry Sample.cos default_box 512 = Ok (1024, 512).
Proof.
  assert (R : aspect_ratio Sample.cos default_box = Ok 0x1.000810a9c89cdp+1%float)
    by (vm_compute; reflexivity).
  assert (W : initial_width 512 0x1.000810a9c89cdp+1 = Ok 1024)
    by (vm_compute; reflexivity).
  destruct (width_is_truncated_product Sample.cos _ _ _ _ 512 _ 1024 R W)
    as (_ & T & G).
  split; [exact R|]. split; [exact W|]. split; [exact T|].
  apply G. unfold MAX_WIDTH. lia.
Defined.

(** C3 as stated fails.  The box (0, -1, 3, 1) has the ratio 1.5; at
    height 2000 the width 3000 is clamped to 2500, and the script's
    height is [int(2500 / 1.5) = 1666], where the nearest integer to
    1666.67 is 1667. *)
Lemma clamped_height_is_not_the_nearest_integer :
  (forall cos, cos 0%float = 1%float ->
     aspect_ratio cos [0; -1; 3; 1]%float = Ok 1.5%float
     /\ geometry cos [0; -1; 3; 1]%float 2000 = Ok (2500, 1666))
  /\ initial_width 2000 1.5 = Ok 3000
  /\ clamped_height MAX_WIDTH 1.5 = Ok 1666
  /\ spec_clamped_height MAX_WIDTH 1.5 = Ok 1667.
Proof.
  split; [|repeat split; vm_compute; reflexivity].
  intros cos C. split.
  - rewrite aspect_ratio_eq.
    change (Py.radians ((-1 + 1) / 2)) with 0%float.
    now rewrite (math_cos_at cos 0 1 C) by reflexivity.
  - rewrite (geometry_at_equator _ _ _ _ _ _ C) by reflexivity.
    vm_compute. reflexivity.
Qed.

(** Ratio 1.5 at height 2000: width 3000 is clamped, the height is
    [int(2500 / 1.5)].  Ratio -1.5 at height -2000, a box reversed in
    longitude: width 3000 again, and the height [int(2500 / -1.5)] is
    -1666, above the quotient. *)
Lemma clamp_recomputes_height_witness :
  (initial_width 2000 1.5 = Ok 3000 /\ MAX_WIDTH < 3000
   /\ (1.5 =? 0)%float = false
   /\ dimensions 2000 1.5
      = (h ← Py.int_of_float (2500 / 1.5)%float; Ok (MAX_WIDTH, h))
   /\ forall w h, dimensions 2000 1.5 = Ok (w, h) ->
        w = MAX_WIDTH /\ truncation_of (2500 / 1.5)%float h)
  /\ (initial_width (-2000) (-1.5) = Ok 3000
      /\ dimensions (-2000) (-1.5) = Ok (2500, -1666)
      /\ truncation_of (2500 / -1.5)%float (-1666)).
Proof.
  assert (W : initial_width 2000 1.5 = Ok 3000) by (vm_compute; reflexivity).
  assert (W' : initial_width (-2000) (-1.5) = Ok 3000)
    by (vm_compute; reflexivity).
  assert (D' : dimensions (-2000) (-1.5) = Ok (2500, -1666))
    by (vm_compute; reflexivity).
  assert (L : MAX_WIDTH < 3000) by (unfold MAX_WIDTH; lia).
  split.
  - split; [exact W|]. split; [exact L|].
    exact (proj1 (clamp_recomputes_height 2000 1.5 3000 W) L).
  - split; [exact W'|]. split; [exact D'|].
    exact (proj2 (proj2 (proj2 (proj1
             (clamp_recomputes_height (-2000) (-1.5) 3000 W') L))
             2500 (-1666) D')).
Defined.

(** The default box string parses to [default_box], and the sample
    cosine is the exact one rounded. *)
Lemma default_box_width_witness :
  within_one_ulp default_cos_value (Sample.cos default_cos_argument)
  /\ parse_box Sample.float_of_str BOX = Ok default_box
  /\ geometry Sample.cos default_box HEIGHT = Ok (1024, 512)
  /\ (ratio ← aspect_ratio Sample.cos default_box; spec_width HEIGHT ratio)
     = Ok 1024.
Proof.
  assert (U : within_one_ulp default_cos_value (Sample.cos default_cos_argument))
    by (right; left; reflexivity).
  split; [exact U|]. split; [vm_compute; reflexivity|].
  exact (proj2 (default_box_width_is_reproducible Sample.cos Sample.cos U U)).
Defined.

(** C9 as stated fails.  The box (0, 0, 1, 0) has [lat1 = lat0]: no
    ratio comes out, infinite or not, and with [cos(0) = 1] the division
    raises ZeroDivisionError.  The box (1, 1, 0, -1) is reversed on both
    axes and its ratio is 0.5, which is not negative. *)
Lemma degenerate_box_raises_and_reversed_box_is_positive :
  ((0 =? 0)%float = true
   /\ forall cos,
        (forall ratio, aspect_ratio cos [0; 0; 1; 0]%float <> Ok ratio)
        /\ (cos 0%float = 1%float ->
            aspect_ratio cos [0; 0; 1; 0]%float = Raise ZeroDivisionError))
  /\ ((0 <? 1)%float = true /\ (-1 <? 1)%float = true
      /\ forall cos, cos 0%float = 1%float ->
           aspect_ratio cos [1; 1; 0; -1]%float = Ok 0.5%float).
Proof.
  split; split; try reflexivity.
  - intros cos. rewrite aspect_ratio_eq.
    change (Py.radians ((0 + 0) / 2)) with 0%float.
    split.
    + intros ratio. destruct (Py.math_cos cos 0) as [c|e]; discriminate.
    + intros C. now rewrite (math_cos_at cos 0 1 C) by reflexivity.
  - split; [reflexivity|]. intros cos C. rewrite aspect_ratio_eq.
    change (Py.radians ((1 + -1) / 2)) with 0%float.
    now rewrite (math_cos_at cos 0 1 C) by reflexivity.
Qed.

(** The box (1, -1, 0, 1), reversed in longitude, has the ratio -0.5;
    the box (0, 0, 1, 0) raises ZeroDivisionError; the box
    (0, 2^1023, 1, 2^1023) has two equal finite latitudes whose sum
    overflows, and [math.cos] raises ValueError at the infinite mean. *)
Lemma aspect_ratio_is_not_validated_witness :
  (ordered true 1 0 /\ ordered false (-1) 1
   /\ aspect_ratio Sample.cos [1; -1; 0; 1]%float = Ok (-0.5)%float
   /\ signed true (-0.5))
  /\ ((0 =? 0)%float = true /\ is_infinity 0 = false
      /\ aspect_ratio Sample.cos [0; 0; 1; 0]%float = Raise ZeroDivisionError)
  /\ ((0x1p1023 =? 0x1p1023)%float = true /\ is_infinity 0x1p1023 = false
      /\ aspect_ratio Sample.cos [0; 0x1p1023; 1; 0x1p1023]%float
         = Raise ValueError).
Proof.
  destruct (aspect_ratio_is_not_validated Sample.cos 1 (-1) 0 1) as [S _].
  destruct (aspect_ratio_is_not_validated Sample.cos 0 0 1 0) as [_ D].
  destruct (aspect_ratio_is_not_validated Sample.cos 0 0x1p1023 1 0x1p1023)
    as [_ V].
  assert (R : aspect_ratio Sample.cos [1; -1; 0; 1]%float = Ok (-0.5)%float)
    by (vm_compute; reflexivity).
  split; [|split].
  - split; [reflexivity|]. split; [reflexivity|]. split; [exact R|].
    exact (S true false false _ eq_refl eq_refl eq_refl R).
  - split; [reflexivity|]. split; [reflexivity|].
    exact (proj1 (proj1 (proj2 (proj2 (D eq_refl eq_refl))) 1%float eq_refl)).
  - split; [reflexivity|]. split; [reflexivity|].
    exact (proj1 (proj2 (proj2 (proj2 (V eq_refl eq_refl))) ValueError eq_refl)).
Defined.

(** * Whole runs of the script *)

Lemma extend_extend st a b : extend (extend st a) b = extend st (a ++ b).
Proof. unfold extend. simpl. now rewrite app_assoc. Qed.

Lemma extend_nil st : extend st [] = st.
Proof. destruct st. unfold extend. simpl. now rewrite app_nil_r. Qed.

Lemma print_token_run token st :
  print_token token st = (Done tt, extend st (token_lines token)).
Proof.
  revert st. induction token as [|[key value] rest IH]; intros st.
  - simpl. now rewrite extend_nil.
  - simpl. run_unfold. simpl. fold (extend st [Printed (key +:+ ": " +:+ value)]).
    rewrite IH, extend_extend. reflexivity.
Qed.

Section Runs.

Variable cos : float -> float.
Variable float_of_str : string -> result float.
Variable str_of_float : float -> string.
Variable world : World.

Lemma load_evalscript_run args st :
  load_evalscript world (evalscript args)
    (builtin_evalscript str_of_float (jas args)) st
  = (Done (effective_evalscript str_of_float world args),
     extend st (load_events world (evalscript args))).
Proof.
  unfold effective_evalscript, load_events.
  destruct (Nat.ltb_spec 1 (PyStr.len (evalscript args))) as [L|L].
  - rewrite load_evalscript_long by assumption.
    destruct (read_text world (evalscript args)); reflexivity.
  - rewrite load_evalscript_short by assumption. now rewrite extend_nil.
Qed.

(** The run of the script after the credential guard, stage by stage:
    each stage either ends the run or hands its value to the next. *)
Lemma main_filled id secret args st :
  id <> "" -> secret <> "" ->
  main cos float_of_str str_of_float world id secret args st
  = match parse_box float_of_str (box args) with
    | Raise e => (Uncaught e, st)
    | Ok bbox =>
        let loaded := load_events world (evalscript args) in
        let asked := loaded ++ [token_request id secret] in
        match token_endpoint world token_url id secret with
        | Raise e => (Uncaught e, extend st asked)
        | Ok token =>
            if ukaztoken args
            then (Exited, extend st (asked ++ token_lines token))
            else
              match geometry cos bbox (vyska args) with
              | Raise e => (Uncaught e, extend st asked)
              | Ok (width, height) =>
                  let sized := asked ++ [Printed (dimensions_line width height)] in
                  match time_range world with
                  | Raise e => (Uncaught e, extend st sized)
                  | Ok (start_date, end_date) =>
                      let json :=
                        build_request bbox start_date end_date width height
                          (format args) (kvalita args)
                          (effective_evalscript str_of_float world args) in
                      let posted := sized ++ [Posted process_url json] in
                      match process_endpoint world process_url json with
                      | Raise e => (Uncaught e, extend st posted)
                      | Ok response =>
                          handle_response world (soubor args) response
                            (extend st posted)
                      end
                  end
              end
        end
    end.
Proof.
  intros Hid Hsecret. unfold main.
  unfold mbind at 1. unfold prog_bind at 1.
  rewrite check_credentials_filled by assumption.
  unfold mbind at 1. unfold prog_bind at 1. unfold lift at 1.
  destruct (parse_box float_of_str (box args)) as [bbox|e]; [|reflexivity].
  unfold mbind at 1. unfold prog_bind at 1.
  rewrite load_evalscript_run.
  unfold mbind at 1. unfold prog_bind at 1.
  unfold fetch_token, token_request. run_unfold. simpl.
  destruct (token_endpoint world token_url id secret) as [token|e]; simpl.
  2: { unfold extend; simpl. now rewrite <- ?app_assoc. }
  unfold show_token.
  destruct (ukaztoken args).
  { run_unfold. rewrite print_token_run. unfold extend. simpl.
    now rewrite <- ?app_assoc. }
  simpl.
  destruct (geometry cos bbox (vyska args)) as [[width height]|e]; simpl.
  2: { unfold extend; simpl. now rewrite <- ?app_assoc. }
  destruct (time_range world) as [[start_date end_date]|e]; simpl.
  2: { unfold extend; simpl. now rewrite <- ?app_assoc. }
  unfold post. run_unfold. simpl.
  destruct (process_endpoint world process_url _) as [response|e]; simpl;
    unfold extend; simpl; now rewrite <- ?app_assoc.
Qed.


(** X1. A run with both credentials, a box that parses, a token, no
    [-T], a geometry and a time range, whose POST is answered with
    status 200 and whose output file can be opened for writing: it ends
    normally, the output file holds the response body, and the trace
    is, in this order, what the evalscript stage added, the token
    request, the dimensions line, the POST, the saving line and the
    opening of the output file. *)
Theorem successful_run id secret args st bbox token width height
    start_date end_date response :
  id <> "" -> secret <> "" ->
  parse_box float_of_str (box args) = Ok bbox ->
  token_endpoint world token_url id secret = Ok token ->
  ukaztoken args = false ->
  geometry cos bbox (vyska args) = Ok (width, height) ->
  time_range world = Ok (start_date, end_date) ->
  process_endpoint world process_url
    (build_request bbox start_date end_date width height (format args)
       (kvalita args) (effective_evalscript str_of_float world args))
  = Ok response ->
  status_code response = 200 -> writable world (soubor args) = true ->
  main cos float_of_str str_of_float world id secret args st
  = (Done tt,
     mkState
       (trace st ++ load_events world (evalscript args)
        ++ [token_request id secret;
            Printed (dimensions_line width height);
            Posted process_url
              (build_request bbox start_date end_date width height
                 (format args) (kvalita args)
                 (effective_evalscript str_of_float world args));
            Printed ("Saving image " +:+ soubor args);
            OpenedForWrite (soubor args)])
       (<[soubor args := content response]> (disk st))).
Proof.
  intros Hid Hsecret Hbox Htoken Hflag Hgeo Htime Hpost H200 Hw.
  rewrite main_filled by assumption.
  rewrite Hbox, Htoken, Hflag, Hgeo, Htime. cbv zeta. rewrite Hpost.
  rewrite handle_response_ok by assumption. rewrite Hw.
  unfold extend. simpl. now rewrite <- ?app_assoc.
Qed.

(** X2. The same run answered with another status than 200: it still
    ends normally, the last line printed is the report with the status
    code and the body text, no file is opened for writing and the disk
    is as before. *)
Theorem http_error_run id secret args st bbox token width height
    start_date end_date response :
  id <> "" -> secret <> "" ->
  parse_box float_of_str (box args) = Ok bbox ->
  token_endpoint world token_url id secret = Ok token ->
  ukaztoken args = false ->
  geometry cos bbox (vyska args) = Ok (width, height) ->
  time_range world = Ok (start_date, end_date) ->
  process_endpoint world process_url
    (build_request bbox start_date end_date width height (format args)
       (kvalita args) (effective_evalscript str_of_float world args))
  = Ok response ->
  status_code response <> 200 ->
  main cos float_of_str str_of_float world id secret args st
  = (Done tt,
     extend st
       (load_events world (evalscript args)
        ++ [token_request id secret;
            Printed (dimensions_line width height);
            Posted process_url
              (build_request bbox start_date end_date width height
                 (format args) (kvalita args)
                 (effective_evalscript str_of_float world args));
            Printed (error_report response)])).
Proof.
  intros Hid Hsecret Hbox Htoken Hflag Hgeo Htime Hpost Herr.
  rewrite main_filled by assumption.
  rewrite Hbox, Htoken, Hflag, Hgeo, Htime. cbv zeta. rewrite Hpost.
  rewrite handle_response_error by assumption.
  unfold extend, error_report. simpl. now rewrite <- ?app_assoc.
Qed.

(** X3. A 200 response whose output file cannot be opened for
    writing: the saving line is printed all the same, the run then ends
    with the uncaught error of [open], and the disk is as before. *)
Theorem unwritable_output_run id secret args st bbox token width height
    start_date end_date response :
  id <> "" -> secret <> "" ->
  parse_box float_of_str (box args) = Ok bbox ->
  token_endpoint world token_url id secret = Ok token ->
  ukaztoken args = false ->
  geometry cos bbox (vyska args) = Ok (width, height) ->
  time_range world = Ok (start_date, end_date) ->
  process_endpoint world process_url
    (build_request bbox start_date end_date width height (format args)
       (kvalita args) (effective_evalscript str_of_float world args))
  = Ok response ->
  status_code response = 200 -> writable world (soubor args) = false ->
  main cos float_of_str str_of_float world id secret args st
  = (Uncaught (RuntimeFailure "OSError"),
     extend st
       (load_events world (evalscript args)
        ++ [token_request id secret;
            Printed (dimensions_line width height);
            Posted process_url
              (build_request bbox start_date end_date width height
                 (format args) (kvalita args)
                 (effective_evalscript str_of_float world args));
            Printed ("Saving image " +:+ soubor args);
            OpenedForWrite (soubor args)])).
Proof.
  intros Hid Hsecret Hbox Htoken Hflag Hgeo Htime Hpost H200 Hw.
  rewrite main_filled by assumption.
  rewrite Hbox, Htoken, Hflag, Hgeo, Htime. cbv zeta. rewrite Hpost.
  rewrite handle_response_ok by assumption. rewrite Hw.
  unfold extend. simpl. now rewrite <- ?app_assoc.
Qed.

(** X4. With [-T], both credentials, a box that parses and a token: the
    run prints one line [key: value] for every entry of the token, in
    the token's order, and exits; it computes no geometry, so even a box
    of fewer than four coordinates does no harm, posts nothing and
    leaves the disk alone. *)
Theorem token_only_run id secret args st bbox token :
  id <> "" -> secret <> "" ->
  parse_box float_of_str (box args) = Ok bbox ->
  token_endpoint world token_url id secret = Ok token ->
  ukaztoken args = true ->
  main cos float_of_str str_of_float world id secret args st
  = (Exited,
     extend st (load_events world (evalscript args)
                ++ token_request id secret :: token_lines token)).
Proof.
  intros Hid Hsecret Hbox Htoken Hflag.
  rewrite main_filled by assumption.
  rewrite Hbox, Htoken, Hflag. cbv zeta.
  now rewrite <- app_assoc.
Qed.

(** X5. When the token exchange raises, nothing catches the exception:
    the run ends with it right after the token request, with no
    dimensions line, no POST and the disk as before. *)
Theorem refused_token_run id secret args st bbox e :
  id <> "" -> secret <> "" ->
  parse_box float_of_str (box args) = Ok bbox ->
  token_endpoint world token_url id secret = Raise e ->
  main cos float_of_str str_of_float world id secret args st
  = (Uncaught e,
     extend st (load_events world (evalscript args) ++ [token_request id secret])).
Proof.
  intros Hid Hsecret Hbox Htoken.
  rewrite main_filled by assumption. now rewrite Hbox, Htoken.
Qed.

(** X6. When the POST raises, nothing catches the exception either: the
    run ends with it, after the POST, with no report, no file opened
    for writing and the disk as before. *)
Theorem failed_post_run id secret args st bbox token width height
    start_date end_date e :
  id <> "" -> secret <> "" ->
  parse_box float_of_str (box args) = Ok bbox ->
  token_endpoint world token_url id secret = Ok token ->
  ukaztoken args = false ->
  geometry cos bbox (vyska args) = Ok (width, height) ->
  time_range world = Ok (start_date, end_date) ->
  process_endpoint world process_url
    (build_request bbox start_date end_date width height (format args)
       (kvalita args) (effective_evalscript str_of_float world args))
  = Raise e ->
  main cos float_of_str str_of_float world id secret args st
  = (Uncaught e,
     extend st
       (load_events world (evalscript args)
        ++ [token_request id secret;
            Printed (dimensions_line width height);
            Posted process_url
              (build_request bbox start_date end_date width height
                 (format args) (kvalita args)
                 (effective_evalscript str_of_float world args))])).
Proof.
  intros Hid Hsecret Hbox Htoken Hflag Hgeo Htime Hpost.
  rewrite main_filled by assumption.
  rewrite Hbox, Htoken, Hflag, Hgeo, Htime. cbv zeta. rewrite Hpost.
  now rewrite <- ?app_assoc.
Qed.

End Runs.

(** ** The box text (line 59) *)

Lemma split_on_length c s :
  length (PyStr.split_on c s) = S (count_char c s).
Proof.
  induction s as [|a s IH]; [reflexivity|]. simpl.
  destruct (Ascii.eqb a c); simpl; [now rewrite IH|].
  destruct (PyStr.split_on c s) as [|w ws]; [discriminate IH|]. exact IH.
Qed.

Lemma concat_cons_char sep a w ws :
  String.concat sep (String a w :: ws) = String a (String.concat sep (w :: ws)).
Proof. destruct ws; reflexivity. Qed.

Lemma map_result_length {A B : Type} (f : A -> result B) l l' :
  map_result f l = Ok l' -> length l' = length l.
Proof.
  revert l'. induction l as [|a l IH]; intros l'; simpl.
  - now intros [= <-].
  - destruct (f a) as [b|e]; [|discriminate]. simpl.
    destruct (map_result f l) as [bs|e]; [|discriminate]. simpl.
    intros [= <-]. simpl. f_equal. now apply IH.
Qed.

Lemma map_result_raises {A B : Type} (f : A -> result B) l a e :
  In a l -> f a = Raise e -> exists e', map_result f l = Raise e'.
Proof.
  induction l as [|a0 l IH]; intros Hin Hf; [destruct Hin|]. simpl.
  destruct (f a0) as [b|e0] eqn:F0; [|simpl; eauto]. simpl.
  destruct Hin as [->|Hin]; [congruence|].
  destruct (IH Hin Hf) as [e' ->]. simpl. eauto.
Qed.

Lemma map_result_all {A B : Type} (f : A -> result B) l l' :
  map_result f l = Ok l' -> Forall2 (fun a b => f a = Ok b) l l'.
Proof.
  revert l'. induction l as [|a l IH]; intros l'; simpl.
  - intros [= <-]. constructor.
  - destruct (f a) as [b|e] eqn:F; [|discriminate]. simpl.
    destruct (map_result f l) as [bs|e]; [|discriminate]. simpl.
    intros [= <-]. constructor; auto.
Qed.

Lemma aspect_ratio_short cos bbox :
  (length bbox < 4)%nat -> aspect_ratio cos bbox = Raise IndexError.
Proof.
  intros H. destruct bbox as [|b0 [|b1 [|b2 [|b3 rest]]]]; simpl in H;
    try reflexivity. lia.
Qed.

(** X7. [split(",")] loses nothing of the box text: the pieces joined
    by commas are the text again, no piece holds a comma, and there is
    one piece more than there are commas; so a box that parses has as
    many coordinates as the text has commas, plus one, each the float
    of its piece, in order. *)
Theorem box_text_pieces float_of_str s :
  String.concat "," (PyStr.split_on "," s) = s
  /\ Forall (fun piece => count_char "," piece = O) (PyStr.split_on "," s)
  /\ length (PyStr.split_on "," s) = S (count_char "," s)
  /\ forall bbox, parse_box float_of_str s = Ok bbox ->
       length bbox = S (count_char "," s)
       /\ Forall2 (fun piece x => float_of_str piece = Ok x)
            (PyStr.split_on "," s) bbox.
Proof.
  split; [|split; [|split]].
  - induction s as [|a s IH]; [reflexivity|]. simpl.
    destruct (Ascii.eqb_spec a ",") as [->|N].
    + pose proof (split_on_length "," s) as L.
      destruct (PyStr.split_on "," s) as [|w ws]; [discriminate L|].
      change (String.concat "," ("" :: w :: ws))
        with (String "," (String.concat "," (w :: ws))).
      now rewrite IH.
    + pose proof (split_on_length "," s) as L.
      destruct (PyStr.split_on "," s) as [|w ws]; [discriminate L|].
      rewrite concat_cons_char. now rewrite IH.
  - induction s as [|a s IH]; [repeat constructor|]. simpl.
    destruct (Ascii.eqb a ",") eqn:E; [constructor; [reflexivity | exact IH]|].
    destruct (PyStr.split_on "," s) as [|w ws].
    { constructor; [simpl; now rewrite E | constructor]. }
    inversion IH as [|? ? Hw Hws]; subst.
    constructor; [|exact Hws]. simpl. now rewrite E.
  - apply split_on_length.
  - intros bbox H. unfold parse_box in H. split.
    + rewrite (map_result_length _ _ _ H). apply split_on_length.
    + now apply map_result_all.
Qed.

Section RunsOfBoxes.

Variable cos : float -> float.
Variable float_of_str : string -> result float.
Variable str_of_float : float -> string.
Variable world : World.

(** X8. When a piece of the box text is not a float, the run ends with
    an uncaught exception at line 59, before the evalscript file is
    opened and before any network call: the trace and the disk are as
    they were. *)
Theorem malformed_box_run id secret args st piece e :
  id <> "" -> secret <> "" ->
  In piece (PyStr.split_on "," (box args)) -> float_of_str piece = Raise e ->
  exists e',
    main cos float_of_str str_of_float world id secret args st = (Uncaught e', st).
Proof.
  intros Hid Hsecret Hin Hf.
  destruct (map_result_raises float_of_str _ _ _ Hin Hf) as [e' E].
  exists e'. rewrite main_filled by assumption.
  unfold parse_box. now rewrite E.
Qed.

(** X9. A box text with fewer than three commas, all of whose pieces
    are floats, passes line 59; without [-T] the run gets its token and
    then ends with an uncaught IndexError at line 84, with no dimensions
    line, no POST and the disk as before. *)
Theorem short_box_run id secret args st bbox token :
  id <> "" -> secret <> "" ->
  (count_char "," (box args) < 3)%nat ->
  parse_box float_of_str (box args) = Ok bbox ->
  token_endpoint world token_url id secret = Ok token ->
  ukaztoken args = false ->
  main cos float_of_str str_of_float world id secret args st
  = (Uncaught IndexError,
     extend st (load_events world (evalscript args) ++ [token_request id secret])).
Proof.
  intros Hid Hsecret Hcount Hbox Htoken Hflag.
  rewrite main_filled by assumption. rewrite Hbox, Htoken, Hflag. cbv zeta.
  unfold geometry. rewrite aspect_ratio_short; [reflexivity|].
  unfold parse_box in Hbox. rewrite (map_result_length _ _ _ Hbox).
  rewrite split_on_length. lia.
Qed.

End RunsOfBoxes.

(** ** What every run keeps to *)

Lemma load_events_quiet world path :
  List.filter network_call (load_events world path) = [].
Proof.
  unfold load_events. destruct (_ <? _)%nat; [|reflexivity].
  destruct (read_text world path); reflexivity.
Qed.

Lemma token_lines_quiet token :
  List.filter network_call (token_lines token) = [].
Proof. induction token as [|[key value] rest IH]; [reflexivity | exact IH]. Qed.

Lemma geometry_width_le cos bbox H w h :
  geometry cos bbox H = Ok (w, h) -> w <= MAX_WIDTH.
Proof.
  unfold geometry. destruct (aspect_ratio cos bbox) as [ratio|e]; [|discriminate].
  simpl. intros E.
  destruct (dimensions_cases _ _ _ _ E) as (w0 & _ & [(L & -> & _)|(_ & -> & _)]);
    lia.
Qed.

Section EveryRun.

Variable cos : float -> float.
Variable float_of_str : string -> result float.
Variable str_of_float : float -> string.
Variable world : World.

(** X10. Every request that a run posts goes to the processing endpoint
    and is the one the earlier lines computed: its box is the whole
    parsed box text, with every coordinate beyond the fourth, its width
    and height are those of the geometry for that box, its width is at
    most 2500 whatever the box, and its format and quality are the
    arguments as given, unchecked. *)
Theorem posted_request_is_as_computed id secret args :
  emits (posted_as_computed cos float_of_str args)
    (main cos float_of_str str_of_float world id secret args).
Proof.
  eapply emits_weaken; [|apply main_events].
  intros [] He; simpl; auto.
  destruct He as (-> & _ & (bbox & w & h & s & e & Hbox & Hgeo & _ & ->)).
  simpl. repeat split; auto. now apply (geometry_width_le cos bbox (vyska args) w h).
Qed.

(** X11. A custom evalscript at a path of more than one character, as
    [len] counts, that can be read replaces the built-in script
    whatever the brightness: lines 63-68 open the file once, print
    nothing and return its text, and every request of the run carries
    that text unchanged. *)
Theorem readable_evalscript_replaces_builtin id secret args script :
  (1 < PyStr.len (evalscript args))%nat ->
  read_text world (evalscript args) = Some script ->
  (forall current st,
     load_evalscript world (evalscript args) current st
     = (Done script, extend st [OpenedForRead (evalscript args)]))
  /\ emits (posts_script script)
       (main cos float_of_str str_of_float world id secret args).
Proof.
  intros Hlen Hread. split.
  - intros current st. rewrite load_evalscript_long by assumption.
    now rewrite Hread.
  - eapply emits_weaken; [|apply main_events].
    intros [] He; simpl; auto.
    destruct He as (_ & _ & (bbox & w & h & s & e & _ & _ & _ & ->)).
    simpl. unfold effective_evalscript.
    apply Nat.ltb_lt in Hlen. now rewrite Hlen, Hread.
Qed.

(** X12. Whatever the run and however it ends, every file other than
    the output file holds afterwards what it held before, and the disk
    changes at all only when the run posted a request that was answered
    with status 200; the only file opened for reading is the evalscript
    file, at a path of more than one character as [len] counts, and the
    only file opened for writing is the output file. *)
Theorem run_touches_only_its_files id secret args st o st' :
  main cos float_of_str str_of_float world id secret args st = (o, st') ->
  (forall path, path <> soubor args -> disk st' !! path = disk st !! path)
  /\ (disk st' <> disk st ->
      exists json response,
        In (Posted process_url json) (trace st')
        /\ process_endpoint world process_url json = Ok response
        /\ status_code response = 200)
  /\ exists events, added st st' events /\ Forall (opens_own_files args) events.
Proof.
  intros H. split; [|split].
  - intros path Hpath.
    destruct (main_disk_post cos float_of_str str_of_float world id secret args
                _ _ _ H) as [->|(json & response & _ & _ & _ & ->)];
      [reflexivity|].
    now apply lookup_insert_ne.
  - intros Hd.
    destruct (string_dec id "") as [Hid|Hid];
      [|destruct (string_dec secret "") as [Hs|Hs]].
    + unfold main in H. unfold mbind at 1 in H. unfold prog_bind at 1 in H.
      rewrite check_credentials_blank in H by auto.
      injection H as <- <-. now destruct Hd.
    + unfold main in H. unfold mbind at 1 in H. unfold prog_bind at 1 in H.
      rewrite check_credentials_blank in H by auto.
      injection H as <- <-. now destruct Hd.
    + rewrite main_filled in H by assumption.
      destruct (parse_box float_of_str (box args));
        [|injection H as <- <-; now destruct Hd].
      cbv zeta in H.
      destruct (token_endpoint world token_url id secret);
        [|injection H as <- <-; now destruct Hd].
      destruct (ukaztoken args); [injection H as <- <-; now destruct Hd|].
      destruct (geometry cos _ _) as [[w h]|];
        [|injection H as <- <-; now destruct Hd].
      destruct (time_range world) as [[s e]|];
        [|injection H as <- <-; now destruct Hd].
      destruct (process_endpoint world _ _) as [response|] eqn:P;
        [|injection H as <- <-; now destruct Hd].
      destruct (Z.eq_dec (status_code response) 200) as [E|E].
      * eexists _, response. split; [|split; [exact P | exact E]].
        rewrite handle_response_ok in H by assumption.
        destruct (writable world (soubor args)); injection H as <- <-;
          simpl; rewrite !in_app_iff; simpl; auto.
      * rewrite handle_response_error in H by assumption.
        injection H as <- <-. now destruct Hd.
  - destruct (main_events cos float_of_str str_of_float world id secret args
                _ _ _ H) as (events & A & F).
    exists events. split; [exact A|].
    eapply Forall_impl; [exact F|].
    intros [] He; simpl in *; auto.
Qed.

(** X13. A run makes at most two network calls and never repeats one:
    none at all, or the token request with the given credentials, or
    that token request followed by one POST to the processing endpoint.
    No POST goes out before the token request, and none after a
    failure. *)
Theorem run_network_calls id secret args st o st' :
  main cos float_of_str str_of_float world id secret args st = (o, st') ->
  exists events,
    added st st' events
    /\ network_shape id secret (List.filter network_call events).
Proof.
  intros H.
  assert (Blank : id = "" \/ secret = "" ->
          exists events, added st st' events
            /\ network_shape id secret (List.filter network_call events)).
  { intros B. unfold main in H. unfold mbind at 1 in H.
    unfold prog_bind at 1 in H.
    rewrite check_credentials_blank in H by assumption. injection H as <- <-.
    eexists. split; [reflexivity|]. now left. }
  destruct (string_dec id "") as [Hid|Hid]; [auto|].
  destruct (string_dec secret "") as [Hs|Hs]; [auto|]. clear Blank.
  rewrite main_filled in H by assumption.
  assert (Shape0 : network_shape id secret []) by now left.
  assert (Shape1 : forall quiet,
             List.filter network_call quiet = [] ->
             network_shape id secret
               (List.filter network_call
                  ((load_events world (evalscript args)
                    ++ [token_request id secret]) ++ quiet))).
  { intros quiet Q. rewrite !List.filter_app, load_events_quiet, Q.
    right. now left. }
  destruct (parse_box float_of_str (box args)) as [bbox|].
  2: { injection H as <- <-. exists []. split; [apply added_refl | exact Shape0]. }
  cbv zeta in H.
  destruct (token_endpoint world token_url id secret) as [token|].
  2: { injection H as <- <-. eexists. split; [reflexivity|].
       rewrite <- (app_nil_r (_ ++ [token_request id secret])). now apply Shape1. }
  destruct (ukaztoken args).
  { injection H as <- <-. eexists. split; [reflexivity|].
    apply Shape1, token_lines_quiet. }
  destruct (geometry cos bbox (vyska args)) as [[w h]|].
  2: { injection H as <- <-. eexists. split; [reflexivity|].
       rewrite <- (app_nil_r (_ ++ [token_request id secret])). now apply Shape1. }
  destruct (time_range world) as [[s e]|].
  2: { injection H as <- <-. eexists. split; [reflexivity|]. now apply Shape1. }
  assert (Shape2 : forall json quiet,
             List.filter network_call quiet = [] ->
             network_shape id secret
               (List.filter network_call
                  ((((load_events world (evalscript args)
                      ++ [token_request id secret])
                     ++ [Printed (dimensions_line w h)])
                    ++ [Posted process_url json]) ++ quiet))).
  { intros json quiet Q. rewrite !List.filter_app, load_events_quiet, Q.
    right. right. now exists json. }
  destruct (process_endpoint world process_url _) as [response|].
  2: { injection H as <- <-. eexists. split; [reflexivity|].
       rewrite <- (app_nil_r (_ ++ [Posted _ _])). now apply Shape2. }
  destruct (Z.eq_dec (status_code response) 200) as [E|E].
  - rewrite handle_response_ok in H by assumption.
    destruct (writable world (soubor args)); injection H as <- <-;
      (eexists; split;
       [unfold added, extend; simpl; rewrite <- app_assoc; reflexivity|]);
      now apply Shape2.
  - rewrite handle_response_error in H by assumption. injection H as <- <-.
    eexists. split;
      [unfold added, extend; simpl; rewrite <- app_assoc; reflexivity|].
    now apply Shape2.
Qed.

End EveryRun.

(** ** Heights that are not positive (lines 45, 92-99) *)

Lemma opp_signed b x : signed b x -> signed (negb b) (- x)%float.
Proof.
  unfold signed. rewrite opp_spec.
  destruct (Prim2SF x); simpl; intros; subst; auto.
Qed.

Lemma float_of_int_signed_negative n x :
  n < 0 -> Py.float_of_int n = Ok x -> signed true x.
Proof.
  intros Hn. unfold Py.float_of_int.
  destruct n as [|p|p]; try lia. simpl binary_normalize.
  pose proof (binary_round_signed true p 0) as S.
  destruct (binary_round prec emax true p 0) as [s|s| |s m e]; simpl in S;
    intros [= <-]; subst.
  - reflexivity.
  - exact I.
  - change (SF2Prim (S754_finite true m e))
      with (- SF2Prim (S754_finite false m e))%float.
    apply (opp_signed false), SF2Prim_finite_signed.
Qed.

Lemma initial_width_of_zero ratio w0 : initial_width 0 ratio = Ok w0 -> w0 = 0.
Proof.
  unfold initial_width. change (Py.float_of_int 0) with (Ok 0%float). simpl.
  unfold Py.int_of_float. rewrite mul_spec.
  change (Prim2SF 0) with (S754_zero false).
  destruct (Prim2SF ratio); simpl; congruence.
Qed.

(** X14. The height is never checked.  For a box with [lat1 > lat0]
    and [lng1 > lng0], a cosine that is not negative and a height of
    zero or below, a geometry that returns gives a width of zero or
    below, never clamps, and hands the height back as it came. *)
Theorem nonpositive_height_passes cos lng0 lat0 lng1 lat1 H w h :
  (lat0 <? lat1)%float = true -> (lng0 <? lng1)%float = true -> H <= 0 ->
  signed false (cos (Py.radians ((lat0 + lat1) / 2))) ->
  geometry cos [lng0; lat0; lng1; lat1] H = Ok (w, h) ->
  w <= 0 /\ h = H.
Proof.
  intros Hlat Hlng HH Hcos E. unfold geometry in E.
  destruct (aspect_ratio cos _) as [ratio|e] eqn:R; [|discriminate].
  simpl in E.
  assert (Sr : signed false ratio).
  { apply (aspect_ratio_signed _ _ _ _ _ false false false _ R); auto.
    - apply (sub_signed_of_lt _ _ Hlng).
    - apply (sub_signed_of_lt _ _ Hlat). }
  destruct (dimensions_cases _ _ _ _ E) as (w0 & W0 & Hcase).
  assert (P0 : w0 <= 0).
  { destruct (Z.eq_dec H 0) as [->|Hneg].
    - now rewrite (initial_width_of_zero _ _ W0).
    - unfold initial_width in W0.
      destruct (Py.float_of_int H) as [hf|e] eqn:F; [|discriminate].
      simpl in W0. apply (int_of_float_sign true _ _) in W0; [exact W0|].
      apply (mul_signed true false); [|exact Sr].
      apply (float_of_int_signed_negative H); [lia | exact F]. }
  destruct Hcase as [(L & -> & ->)|(L & _ & _)].
  - auto.
  - unfold MAX_WIDTH in L. lia.
Qed.

(** ** The runs on concrete worlds *)

(** The default command line, answered with 200. *)
Lemma successful_run_witness :
  Sample.run "id" "secret" default_args 200 "JPEG"
  = (Done tt,
     mkState
       [token_request "id" "secret";
        Printed "Final image dimensions: 1024x512 pixels";
        Posted process_url Worlds.default_request;
        Printed "Saving image image1.jpg";
        OpenedForWrite "image1.jpg"]
       (<["image1.jpg" := "JPEG"]> ∅)).
Proof.
  apply (successful_run Sample.cos Sample.float_of_str Sample.str_of_float
           (Sample.world 200 "JPEG") "id" "secret" default_args Sample.initial
           default_box Sample.token 1024 512
           "2026-10-28T20:19:05.000123+00:00" "2026-11-04T20:19:05.000123+00:00"
           (mkResponse 200 "JPEG" "JPEG"));
    try discriminate; vm_compute; reflexivity.
Defined.

(** The default command line, answered with 403. *)
Lemma http_error_run_witness :
  Sample.run "id" "secret" default_args 403 "denied"
  = (Done tt,
     mkState
       [token_request "id" "secret";
        Printed "Final image dimensions: 1024x512 pixels";
        Posted process_url Worlds.default_request;
        Printed (error_report (mkResponse 403 "denied" "denied"))]
       ∅).
Proof.
  apply (http_error_run Sample.cos Sample.float_of_str Sample.str_of_float
           (Sample.world 403 "denied") "id" "secret" default_args Sample.initial
           default_box Sample.token 1024 512
           "2026-10-28T20:19:05.000123+00:00" "2026-11-04T20:19:05.000123+00:00"
           (mkResponse 403 "denied" "denied"));
    try discriminate; vm_compute; reflexivity.
Defined.

(** [-T] with a box of two coordinates. *)
Lemma token_only_run_witness :
  main Sample.cos Sample.float_of_str Sample.str_of_float
    (Sample.world 200 "JPEG") "id" "secret"
    (Worlds.with_token_flag (Worlds.with_box "1,2" default_args)) Sample.initial
  = (Exited,
     mkState
       [token_request "id" "secret";
        Printed "access_token: abc"; Printed "expires_in: 600"]
       ∅).
Proof.
  apply (token_only_run Sample.cos Sample.float_of_str Sample.str_of_float
           (Sample.world 200 "JPEG") "id" "secret"
           (Worlds.with_token_flag (Worlds.with_box "1,2" default_args))
           Sample.initial [1; 2]%float Sample.token);
    try discriminate; vm_compute; reflexivity.
Defined.

(** The identity endpoint refuses the credentials. *)
Lemma refused_token_run_witness :
  main Sample.cos Sample.float_of_str Sample.str_of_float
    Worlds.refused "id" "secret" default_args Sample.initial
  = (Uncaught (RuntimeFailure "InvalidClientError"),
     mkState [token_request "id" "secret"] ∅).
Proof.
  apply (refused_token_run Sample.cos Sample.float_of_str Sample.str_of_float
           Worlds.refused "id" "secret" default_args Sample.initial
           default_box (RuntimeFailure "InvalidClientError"));
    try discriminate; vm_compute; reflexivity.
Defined.

(** The imagery endpoint cannot be reached. *)
Lemma failed_post_run_witness :
  main Sample.cos Sample.float_of_str Sample.str_of_float
    Worlds.unreachable "id" "secret" default_args Sample.initial
  = (Uncaught (RuntimeFailure "ConnectionError"),
     mkState
       [token_request "id" "secret";
        Printed "Final image dimensions: 1024x512 pixels";
        Posted process_url Worlds.default_request]
       ∅).
Proof.
  apply (failed_post_run Sample.cos Sample.float_of_str Sample.str_of_float
           Worlds.unreachable "id" "secret" default_args Sample.initial
           default_box Sample.token 1024 512
           "2026-10-28T20:19:05.000123+00:00" "2026-11-04T20:19:05.000123+00:00"
           (RuntimeFailure "ConnectionError"));
    try discriminate; vm_compute; reflexivity.
Defined.

(** The output file cannot be opened: the saving line is printed, the
    disk keeps its old bytes. *)
Lemma unwritable_output_run_witness :
  main Sample.cos Sample.float_of_str Sample.str_of_float
    Worlds.read_only "id" "secret" default_args
    (mkState [] {["image1.jpg" := "old bytes"]})
  = (Uncaught (RuntimeFailure "OSError"),
     mkState
       [token_request "id" "secret";
        Printed "Final image dimensions: 1024x512 pixels";
        Posted process_url Worlds.default_request;
        Printed "Saving image image1.jpg";
        OpenedForWrite "image1.jpg"]
       {["image1.jpg" := "old bytes"]}).
Proof.
  etransitivity.
  - apply (unwritable_output_run Sample.cos Sample.float_of_str
             Sample.str_of_float Worlds.read_only "id" "secret" default_args
             (mkState [] {["image1.jpg" := "old bytes"]})
             default_box Sample.token 1024 512
             "2026-10-28T20:19:05.000123+00:00"
             "2026-11-04T20:19:05.000123+00:00"
             (mkResponse 200 "JPEG" "JPEG"));
      try discriminate; vm_compute; reflexivity.
  - reflexivity.
Defined.

(** The box [0,-1,3,x]: the fourth piece is no float. *)
Lemma malformed_box_run_witness :
  Sample.float_of_str "x" = Raise ValueError
  /\ exists e',
       main Sample.cos Sample.float_of_str Sample.str_of_float
         (Sample.world 200 "JPEG") "id" "secret"
         (Worlds.with_box "0,-1,3,x" default_args) Sample.initial
       = (Uncaught e', Sample.initial).
Proof.
  split; [reflexivity|].
  apply (malformed_box_run Sample.cos Sample.float_of_str Sample.str_of_float
           (Sample.world 200 "JPEG") "id" "secret"
           (Worlds.with_box "0,-1,3,x" default_args) Sample.initial
           "x" ValueError); try discriminate.
  - simpl. auto.
  - reflexivity.
Defined.

(** The box [1,2]: two coordinates, one comma. *)
Lemma short_box_run_witness :
  main Sample.cos Sample.float_of_str Sample.str_of_float
    (Sample.world 200 "JPEG") "id" "secret"
    (Worlds.with_box "1,2" default_args) Sample.initial
  = (Uncaught IndexError, mkState [token_request "id" "secret"] ∅).
Proof.
  apply (short_box_run Sample.cos Sample.float_of_str Sample.str_of_float
           (Sample.world 200 "JPEG") "id" "secret"
           (Worlds.with_box "1,2" default_args) Sample.initial
           [1; 2]%float Sample.token); try discriminate.
  - simpl. lia.
  - vm_compute; reflexivity.
  - reflexivity.
  - reflexivity.
Defined.

(** [-E custom.js] with a readable file [custom.js]. *)
Lemma readable_evalscript_witness :
  let args := with_evalscript "custom.js" default_args in
  (forall current st,
     load_evalscript Worlds.scripted "custom.js" current st
     = (Done "//VERSION=3 custom", extend st [OpenedForRead "custom.js"]))
  /\ emits (posts_script "//VERSION=3 custom")
       (main Sample.cos Sample.float_of_str Sample.str_of_float
          Worlds.scripted "id" "secret" args).
Proof.
  intros args.
  apply (readable_evalscript_replaces_builtin Sample.cos Sample.float_of_str
           Sample.str_of_float Worlds.scripted "id" "secret" args
           Worlds.custom_script).
  - vm_compute. lia.
  - reflexivity.
Defined.

(** The default command line, answered with 200, beside a file of the
    user's: only [image1.jpg] changes. *)
Lemma run_touches_only_its_files_witness :
  let st := mkState [] {["notes.txt" := "keep"]} in
  let st' :=
    mkState
      [token_request "id" "secret";
       Printed "Final image dimensions: 1024x512 pixels";
       Posted process_url Worlds.default_request;
       Printed "Saving image image1.jpg";
       OpenedForWrite "image1.jpg"]
      (<["image1.jpg" := "JPEG"]> {["notes.txt" := "keep"]}) in
  main Sample.cos Sample.float_of_str Sample.str_of_float
    (Sample.world 200 "JPEG") "id" "secret" default_args st = (Done tt, st')
  /\ disk st' <> disk st
  /\ (forall path, path <> "image1.jpg" -> disk st' !! path = disk st !! path)
  /\ (exists json response,
        In (Posted process_url json) (trace st')
        /\ process_endpoint (Sample.world 200 "JPEG") process_url json
           = Ok response
        /\ status_code response = 200)
  /\ exists events,
       added st st' events /\ Forall (opens_own_files default_args) events.
Proof.
  intros st st'.
  assert (E : main Sample.cos Sample.float_of_str Sample.str_of_float
                (Sample.world 200 "JPEG") "id" "secret" default_args st
              = (Done tt, st')) by (vm_compute; reflexivity).
  assert (N : disk st' <> disk st).
  { intros Q. apply (f_equal (fun d => d !! "image1.jpg")) in Q.
    vm_compute in Q. discriminate Q. }
  destruct (run_touches_only_its_files Sample.cos Sample.float_of_str
              Sample.str_of_float (Sample.world 200 "JPEG") "id" "secret"
              default_args st (Done tt) st' E) as (Others & Why & Files).
  split; [exact E|]. split; [exact N|]. split; [exact Others|].
  split; [exact (Why N) | exact Files].
Defined.

(** The default command line, answered with 403: the token request,
    then one POST. *)
Lemma run_network_calls_witness :
  let st' := snd (Sample.run "id" "secret" default_args 403 "denied") in
  Sample.run "id" "secret" default_args 403 "denied" = (Done tt, st')
  /\ exists events,
       added Sample.initial st' events
       /\ network_shape "id" "secret" (List.filter network_call events).
Proof.
  intros st'.
  assert (E : main Sample.cos Sample.float_of_str Sample.str_of_float
                (Sample.world 403 "denied") "id" "secret" default_args
                Sample.initial
              = (Done tt, st')) by (vm_compute; reflexivity).
  split; [exact E|].
  exact (run_network_calls Sample.cos Sample.float_of_str
           Sample.str_of_float (Sample.world 403 "denied") "id" "secret"
           default_args Sample.initial (Done tt) st' E).
Defined.

(** The box [0,-1,3,1] with [cos(0) = 1] and the height -100. *)
Lemma nonpositive_height_witness :
  geometry Sample.cos [0; -1; 3; 1]%float (-100) = Ok (-150, -100)
  /\ -150 <= 0 /\ -100 = -100.
Proof.
  assert (E : geometry Sample.cos [0; -1; 3; 1]%float (-100) = Ok (-150, -100))
    by (vm_compute; reflexivity).
  split; [exact E|].
  apply (nonpositive_height_passes Sample.cos 0 (-1) 3 1 (-100) (-150) (-100)).
  - reflexivity.
  - reflexivity.
  - lia.
  - vm_compute. reflexivity.
  - exact E.
Defined.
